(** * Sales dashboard: the upload callback of [app.py]

    A shallow embedding of [process_album_data] and of the callback
    [update_dashboard], with the part of pandas and plotly they call.

    Conventions of the model.
    - Python objects produced by [json.loads] are values of [pyobj].  Finite
      numbers are rationals (machine width and rounding are not represented);
      [PyNaN] is the float NaN, which pandas also uses as its missing marker.
    - A raised exception is a value [Raise e]; the [try]/[except Exception]
      of the callback is a [match] on that value.
    - [pd.to_numeric] is modelled with its one failure on JSON values, the
      integer too large for a float.
    - [base64.b64decode(..).decode('utf-8')], [json.loads] and the recogniser
      of numeric strings inside [pd.to_numeric] are library code: they are
      variables of the section [Callback].
    - The plotly constructors take any column as trace data and do not
      raise.  Layout decoration of the figures (axis titles, colours) is
      left out; the trace data and the figure title are kept.
    - The texts of exceptions raised inside the libraries are abridged;
      the text of a [KeyError], the text of the [OverflowError] and the two
      messages of the callback are exact. *)

From Stdlib Require Import List String Ascii Bool Arith ZArith QArith Lia Lqa.
From Stdlib Require Import Permutation Sorted Qabs.
Import ListNotations.
Close Scope Q_scope.
Open Scope string_scope.
Open Scope list_scope.

(** ** Exceptions and results *)

Inductive exn : Type :=
| KeyError (key : string)
| ValueError (msg : string)
| TypeError (msg : string)
| AttributeError (msg : string)
| BinasciiError (msg : string)
| UnicodeDecodeError (msg : string)
| JSONDecodeError (msg : string)
| OverflowError (msg : string).

(** [str(e)]: a [KeyError] prints the [repr] of its key. *)
Definition str_exn (e : exn) : string :=
  match e with
  | KeyError key => ("'" ++ key ++ "'")%string
  | ValueError msg | TypeError msg | AttributeError msg
  | BinasciiError msg | UnicodeDecodeError msg | JSONDecodeError msg
  | OverflowError msg => msg
  end.

Inductive result (A : Type) : Type :=
| Ok (a : A)
| Raise (e : exn).
Arguments Ok {A} a.
Arguments Raise {A} e.

Definition bind {A B : Type} (c : result A) (k : A -> result B) : result B :=
  match c with
  | Ok a => k a
  | Raise e => Raise e
  end.

Notation "'let*' x ':=' c 'in' k" := (bind c (fun x => k))
  (at level 10, x name, c at level 100, k at level 200).

Fixpoint mapM {A B : Type} (f : A -> result B) (l : list A) : result (list B) :=
  match l with
  | [] => Ok []
  | a :: l' =>
      let* b := f a in
      let* bs := mapM f l' in
      Ok (b :: bs)
  end.

(** ** Python objects *)

#[local] Set Warnings "-register-all".

Inductive pyobj : Type :=
| PyNone
| PyBool (b : bool)
| PyNum (q : Q)
| PyNaN
| PyStr (s : string)
| PyList (items : list pyobj)
| PyDict (entries : list (string * pyobj)).

(** A [dict] is kept as its items in insertion order; keys are distinct in
    Python, and [dict_get] reads the first binding. *)
Fixpoint dict_get (entries : list (string * pyobj)) (key : string) : option pyobj :=
  match entries with
  | [] => None
  | (k, v) :: rest => if String.eqb k key then Some v else dict_get rest key
  end.

Definition dict_keys (entries : list (string * pyobj)) : list string :=
  map fst entries.

(** [pd.isna] / [Series.notna] on one cell. *)
Definition isna (v : pyobj) : bool :=
  match v with
  | PyNone | PyNaN => true
  | _ => false
  end.

Definition notna (col : list pyobj) : list bool :=
  map (fun v => negb (isna v)) col.

(** The numeric value of a number object; [bool] is a subtype of [int]. *)
Definition as_number (v : pyobj) : option Q :=
  match v with
  | PyNum q => Some q
  | PyBool true => Some 1%Q
  | PyBool false => Some 0%Q
  | _ => None
  end.

(** ** Data frames *)

Record DataFrame : Type := mkDataFrame {
  nrows : nat;
  columns : list (string * list pyobj)
}.

Definition empty_frame : DataFrame := mkDataFrame 0 [].

Fixpoint lookup_column (cols : list (string * list pyobj)) (key : string)
  : option (list pyobj) :=
  match cols with
  | [] => None
  | (k, c) :: rest => if String.eqb k key then Some c else lookup_column rest key
  end.

(** [df[key]] *)
Definition getitem (df : DataFrame) (key : string) : result (list pyobj) :=
  match lookup_column (columns df) key with
  | Some c => Ok c
  | None => Raise (KeyError key)
  end.

Fixpoint replace_column (cols : list (string * list pyobj)) (key : string)
  (c : list pyobj) : list (string * list pyobj) :=
  match cols with
  | [] => [(key, c)]
  | (k, c0) :: rest =>
      if String.eqb k key then (k, c) :: rest
      else (k, c0) :: replace_column rest key c
  end.

(** [df[key] = c] *)
Definition setitem (df : DataFrame) (key : string) (c : list pyobj) : DataFrame :=
  mkDataFrame (nrows df) (replace_column (columns df) key c).

(** Selection by a boolean mask, [col[mask]]. *)
Fixpoint select {A : Type} (mask : list bool) (col : list A) : list A :=
  match mask, col with
  | true :: m, a :: c => a :: select m c
  | false :: m, _ :: c => select m c
  | _, _ => []
  end.

(** [df[mask]]: every column is cut by the same mask. *)
Definition boolean_index (df : DataFrame) (mask : list bool) : DataFrame :=
  mkDataFrame (List.length (filter (fun b => b) mask))
              (map (fun kc => (fst kc, select mask (snd kc))) (columns df)).

(** *** The constructor [pd.DataFrame(data)] on decoded JSON *)

Fixpoint mem_string (k : string) (l : list string) : bool :=
  match l with
  | [] => false
  | k' :: l' => String.eqb k' k || mem_string k l'
  end.

(** Labels in order of first appearance. *)
Fixpoint add_keys (seen : list string) (ks : list string) : list string :=
  match ks with
  | [] => seen
  | k :: ks' => add_keys (if mem_string k seen then seen else seen ++ [k]) ks'
  end.

Definition union_keys (recs : list (list (string * pyobj))) : list string :=
  fold_left (fun seen r => add_keys seen (dict_keys r)) recs [].

(** A key that a record does not carry gives a NaN cell. *)
Definition cell_of (key : string) (r : list (string * pyobj)) : pyobj :=
  match dict_get r key with
  | Some v => v
  | None => PyNaN
  end.

Definition frame_of_records (recs : list (list (string * pyobj))) : DataFrame :=
  mkDataFrame (List.length recs)
              (map (fun k => (k, map (cell_of k) recs)) (union_keys recs)).

(** The records of a list that starts with a dict.  An empty list among
    the later elements is read as a record without fields (an all-NaN
    row); any other element that is not a dict stops the construction. *)
Fixpoint records_of (items : list pyobj) : option (list (list (string * pyobj))) :=
  match items with
  | [] => Some []
  | PyDict r :: rest =>
      match records_of rest with
      | Some rs => Some (r :: rs)
      | None => None
      end
  | PyList [] :: rest =>
      match records_of rest with
      | Some rs => Some ([] :: rs)
      | None => None
      end
  | _ :: _ => None
  end.

(** Column-oriented input, [pd.DataFrame({label: column, ...})]. *)
Definition raw_lengths (kv : list (string * pyobj)) : list nat :=
  flat_map (fun e => match snd e with PyList l => [List.length l] | _ => [] end) kv.

Definition dict_indexes (kv : list (string * pyobj)) : list (list (string * pyobj)) :=
  flat_map (fun e => match snd e with PyDict d => [d] | _ => [] end) kv.

(** A list is the column itself, a dict is read along the row labels, a
    scalar is repeated on every row. *)
Definition column_of_value (n : nat) (index : list string) (v : pyobj) : list pyobj :=
  match v with
  | PyList l => l
  | PyDict d => map (fun k => cell_of k d) index
  | scalar => repeat scalar n
  end.

Definition frame_of_dict (kv : list (string * pyobj)) : result DataFrame :=
  match kv with
  | [] => Ok empty_frame
  | _ :: _ =>
      match raw_lengths kv, dict_indexes kv with
      | [], [] =>
          Raise (ValueError "If using all scalar values, you must pass an index")
      | [], ds =>
          let index := union_keys ds in
          Ok (mkDataFrame (List.length index)
                (map (fun e => (fst e, column_of_value (List.length index) index (snd e))) kv))
      | n :: ns, ds =>
          if negb (forallb (Nat.eqb n) ns) then
            Raise (ValueError "All arrays must be of the same length")
          else
            match ds with
            | _ :: _ =>
                Raise (ValueError
                  "Mixing dicts with non-Series may lead to ambiguous ordering.")
            | [] =>
                Ok (mkDataFrame n
                      (map (fun e => (fst e, column_of_value n [] (snd e))) kv))
            end
      end
  end.

(** [pd.DataFrame(data)].  A list whose first element is not a mapping gets
    positional integer labels (0, 1, ...); the callback addresses columns by
    name only, so such a frame is kept without named columns. *)
Definition pd_DataFrame (data : pyobj) : result DataFrame :=
  match data with
  | PyNone => Ok empty_frame
  | PyBool _ | PyNum _ | PyNaN | PyStr _ =>
      Raise (ValueError "DataFrame constructor not properly called!")
  | PyDict kv => frame_of_dict kv
  | PyList [] => Ok empty_frame
  | PyList (PyDict r :: rest) =>
      match records_of (PyDict r :: rest) with
      | Some recs => Ok (frame_of_records recs)
      | None => Raise (AttributeError "object has no attribute 'keys'")
      end
  | PyList (_ :: _ as items) => Ok (mkDataFrame (List.length items) [])
  end.

(** *** Counting and sorting *)

(** Equality of hashable keys: numbers by value, strings by content. *)
Definition key_eqb (a b : pyobj) : bool :=
  match as_number a, as_number b with
  | Some p, Some q => Qeq_bool p q
  | _, _ =>
      match a, b with
      | PyStr s, PyStr t => String.eqb s t
      | _, _ => false
      end
  end.

Definition hashable (v : pyobj) : bool :=
  match v with
  | PyList _ | PyDict _ => false
  | _ => true
  end.

Fixpoint bump (k : pyobj) (acc : list (pyobj * nat)) : list (pyobj * nat) :=
  match acc with
  | [] => [(k, 1)]
  | (k', n) :: rest =>
      if key_eqb k' k then (k', S n) :: rest else (k', n) :: bump k rest
  end.

(** One pass over the column; missing cells are skipped ([dropna=True]).
    A cell that is a list or a mapping is refused as unhashable, as pandas
    does up to version 2; the statements about counted columns are about
    years that are numbers, strings or missing. *)
Fixpoint count_values (col : list pyobj) (acc : list (pyobj * nat))
  : result (list (pyobj * nat)) :=
  match col with
  | [] => Ok acc
  | v :: rest =>
      if isna v then count_values rest acc
      else if hashable v then count_values rest (bump v acc)
      else Raise (TypeError "unhashable type")
  end.

Fixpoint insert_by {A : Type} (leb : A -> A -> bool) (x : A) (l : list A) : list A :=
  match l with
  | [] => [x]
  | y :: l' => if leb y x then y :: insert_by leb x l' else x :: y :: l'
  end.

(** Stable insertion sort: equal elements keep their input order. *)
Definition sort_by {A : Type} (leb : A -> A -> bool) (l : list A) : list A :=
  fold_left (fun acc x => insert_by leb x acc) l [].

(** [Series.value_counts()]: groups in order of first appearance, then
    the largest count first. *)
Definition value_counts (col : list pyobj) : result (list (pyobj * nat)) :=
  let* groups := count_values col [] in
  Ok (sort_by (fun a b => Nat.leb (snd b) (snd a)) groups).

(** Ordering of index labels: numbers among themselves, strings among
    themselves; Python refuses to order a number against a string. *)
Definition label_leb (a b : pyobj) : bool :=
  match as_number a, as_number b with
  | Some p, Some q => Qle_bool p q
  | _, _ =>
      match a, b with
      | PyStr s, PyStr t => String.leb s t
      | _, _ => false
      end
  end.

Definition is_str (v : pyobj) : bool :=
  match v with PyStr _ => true | _ => false end.

Definition is_number (v : pyobj) : bool :=
  match as_number v with Some _ => true | None => false end.

Definition orderable (labels : list pyobj) : bool :=
  match labels with
  | [] | [_] => true
  | _ => forallb is_number labels || forallb is_str labels
  end.

(** [Series.sort_index()] on a counted series. *)
Definition sort_index (s : list (pyobj * nat)) : result (list (pyobj * nat)) :=
  if orderable (map fst s) then
    Ok (sort_by (fun a b => label_leb (fst a) (fst b)) s)
  else
    Raise (TypeError "'<' not supported between instances of 'str' and 'int'").

(** ** Figures *)

Inductive trace : Type :=
| Scatter (x y : list pyobj) (text : list pyobj) (mode : string)
| Bar (x : list pyobj) (y : list nat)
| Heatmap (z : list (list pyobj)) (x : list pyobj) (y : list string)
| Treemap (labels : list pyobj) (parents : list string) (values : list nat).

Record Figure : Type := mkFigure {
  fig_data : list trace;
  fig_title : option string
}.

(** [go.Figure()] *)
Definition go_Figure : Figure := mkFigure [] None.

Definition figure_of (t : trace) (title : string) : Figure :=
  mkFigure [t] (Some title).

(** [a.reshape(-1, 1)]: one row per element, one cell per row. *)
Definition reshape_rows_1 {A : Type} (a : list A) : list (list A) :=
  map (fun v => [v]) a.

(** ** The tier rule *)

(** [position <= bound] for a numeric bound. *)
Definition le_number (position : pyobj) (bound : Q) : result bool :=
  match as_number position with
  | Some q => Ok (Qle_bool q bound)
  | None => Raise (TypeError "'<=' not supported between instances")
  end.

(** The local function of the callback.  It is applied to the cells of the
    normalised column, which are numbers or NaN; on another object the
    comparison raises. *)
Definition get_performance_tier (position : pyobj) : result string :=
  if isna position then Ok "No Chart"
  else
    let* le5 := le_number position 5%Q in
    if le5 : bool then Ok "Top 5"
    else
      let* le10 := le_number position 10%Q in
      if le10 : bool then Ok "Top 10"
      else
        let* le50 := le_number position 50%Q in
        if le50 : bool then Ok "Top 50"
        else Ok "No Chart".

(** ** Text helpers *)

(** [s.split(sep)] for a one-character separator. *)
Fixpoint split_on (sep : ascii) (s : string) : list string :=
  match s with
  | EmptyString => [""]
  | String c s' =>
      if Ascii.eqb c sep then "" :: split_on sep s'
      else
        match split_on sep s' with
        | [] => [String c ""]
        | p :: ps => String c p :: ps
        end
  end.

(** [a, b = parts] *)
Definition unpack2 (parts : list string) : result (string * string) :=
  match parts with
  | [a; b] => Ok (a, b)
  | [] | [_] => Raise (ValueError "not enough values to unpack (expected 2, got 1)")
  | _ => Raise (ValueError "too many values to unpack (expected 2)")
  end.

Definition position_field : string := "US_peak_chart_post".

(** The least magnitude an integer cannot be converted to a float at:
    half an ulp above the largest double, [2^1024 - 2^970]. *)
Definition float_overflow_bound : Q := inject_Z (2 ^ 1024 - 2 ^ 970).

(** A number of that magnitude can only be a Python integer. *)
Definition beyond_float_range (v : pyobj) : bool :=
  match v with
  | PyNum q => Qle_bool float_overflow_bound (Qabs q)
  | _ => false
  end.

(** ** The callback *)

Section Callback.

(** [base64.b64decode(s).decode('utf-8')] *)
Variable b64decode_utf8 : string -> result string.
(** [json.loads] *)
Variable json_loads : string -> result pyobj.
(** The numeric reading pandas gives a non-empty string, if any. *)
Variable str_to_float : string -> option Q.

(** [pd.to_numeric(.., errors='coerce')] on one cell within float range.
    A boolean is given by the number it equals, 0 or 1. *)
Definition to_numeric_value (v : pyobj) : pyobj :=
  match v with
  | PyNum q => PyNum q
  | PyBool true => PyNum 1%Q
  | PyBool false => PyNum 0%Q
  | PyStr s =>
      if String.eqb s "" then PyNaN
      else match str_to_float s with
           | Some q => PyNum q
           | None => PyNaN
           end
  | PyNone | PyNaN | PyList _ | PyDict _ => PyNaN
  end.

Definition to_numeric (col : list pyobj) : list pyobj :=
  map to_numeric_value col.

(** [pd.to_numeric(col, errors='coerce')]: values that cannot be read
    become NaN, but an integer beyond float range is not coerced: its
    conversion raises [OverflowError], which [errors='coerce'] does not
    catch. *)
Definition pd_to_numeric (col : list pyobj) : result (list pyobj) :=
  if existsb beyond_float_range col
  then Raise (OverflowError "int too large to convert to float")
  else Ok (to_numeric col).

Definition process_album_data (album_data : pyobj) : result DataFrame :=
  let* df := pd_DataFrame album_data in
  let* col := getitem df position_field in
  let* numeric := pd_to_numeric col in
  Ok (setitem df position_field numeric).

(** Lines 107-109: envelope, base64 and JSON. *)
Definition load_album_data (contents : string) : result pyobj :=
  let* parts := unpack2 (split_on "," contents) in
  let* decoded := b64decode_utf8 (snd parts) in
  json_loads decoded.

(** [charting_df = df[df['US_peak_chart_post'].notna()]] *)
Definition charting_df (df : DataFrame) : result DataFrame :=
  let* col := getitem df position_field in
  Ok (boolean_index df (notna col)).

Definition line_fig (subset : DataFrame) : result Figure :=
  let* x := getitem subset "album" in
  let* y := getitem subset position_field in
  Ok (figure_of (Scatter x y [] "lines+markers") "Chart Performance Over Time").

Definition release_freq (df : DataFrame) : result (list (pyobj * nat)) :=
  let* years := getitem df "year" in
  let* counts := value_counts years in
  sort_index counts.

Definition bar_fig (df : DataFrame) : result Figure :=
  let* freq := release_freq df in
  Ok (figure_of (Bar (map fst freq) (map snd freq)) "Album Release Frequency").

Definition scatter_fig (subset : DataFrame) : result Figure :=
  let* x := getitem subset "year" in
  let* y := getitem subset position_field in
  let* text := getitem subset "album" in
  Ok (figure_of (Scatter x y text "markers") "Year vs Chart Position").

Definition heatmap_fig (subset : DataFrame) : result Figure :=
  let* col := getitem subset position_field in
  let* x := getitem subset "year" in
  Ok (figure_of (Heatmap (reshape_rows_1 col) x ["Chart Position"])
                "Year vs Chart Performance").

Definition performance_tiers (df : DataFrame) : result DataFrame :=
  let* col := getitem df position_field in
  let* tiers := mapM get_performance_tier col in
  Ok (setitem df "performance_tier" (map PyStr tiers)).

Definition treemap_fig (df : DataFrame) : result Figure :=
  let* df' := performance_tiers df in
  let* tiers := getitem df' "performance_tier" in
  let* tier_counts := value_counts tiers in
  Ok (figure_of (Treemap (map fst tier_counts)
                         (repeat "" (List.length tier_counts))
                         (map snd tier_counts))
                "Album Performance Distribution").

(** Lines 114-195: the five figures of a processed table, in the order
    the callback builds them. *)
Definition dashboard_figures (df : DataFrame) : result (list Figure) :=
  let* subset := charting_df df in
  let* line := line_fig subset in
  let* bar := bar_fig df in
  let* scatter := scatter_fig subset in
  let* heatmap := heatmap_fig subset in
  let* treemap := treemap_fig df in
  Ok [line; bar; scatter; heatmap; treemap].

(** The body of the [try]. *)
Definition pipeline (contents : string) : result (list Figure) :=
  let* album_data := load_album_data contents in
  let* df := process_album_data album_data in
  dashboard_figures df.

Definition empty_figures : list Figure := repeat go_Figure 5.

(** [not contents] *)
Definition falsy (contents : option string) : bool :=
  match contents with
  | None | Some EmptyString => true
  | Some _ => false
  end.

Definition update_dashboard (contents : option string) (filename : option string)
  : list Figure * string :=
  match contents with
  | None | Some EmptyString => (empty_figures, "Please upload a JSON file")
  | Some text =>
      match pipeline text with
      | Ok figures => (figures, "")
      | Raise e => (empty_figures, ("Error processing file: " ++ str_exn e)%string)
      end
  end.

End Callback.

(** ** Recorded uploads

    A concrete instance of the three library variables, for the examples:
    a decoder of the standard base64 alphabet with ASCII content, a reader
    of plain decimal integers, and [json.loads] tabulated on the uploads
    listed in [uploads] (each with the value Python parses from it). *)

Module Recorded.

Definition sextet (c : ascii) : option nat :=
  let n := nat_of_ascii c in
  if ((65 <=? n) && (n <=? 90))%nat then Some (n - 65)
  else if ((97 <=? n) && (n <=? 122))%nat then Some (n - 71)
  else if ((48 <=? n) && (n <=? 57))%nat then Some (n + 4)
  else if (n =? 43)%nat then Some 62
  else if (n =? 47)%nat then Some 63
  else None.

Definition pad : ascii := "="%char.

Fixpoint b64_bytes (s : string) : option string :=
  match s with
  | EmptyString => Some EmptyString
  | String a (String b (String c (String d rest))) =>
      match sextet a, sextet b with
      | Some x, Some y =>
          let b1 := ascii_of_nat (x * 4 + y / 16) in
          if Ascii.eqb c pad then
            if Ascii.eqb d pad && String.eqb rest "" then Some (String b1 "")
            else None
          else
            match sextet c with
            | Some z =>
                let b2 := ascii_of_nat ((y mod 16) * 16 + z / 4) in
                if Ascii.eqb d pad then
                  if String.eqb rest "" then Some (String b1 (String b2 ""))
                  else None
                else
                  match sextet d, b64_bytes rest with
                  | Some w, Some tail =>
                      let b3 := ascii_of_nat ((z mod 4) * 64 + w) in
                      Some (String b1 (String b2 (String b3 tail)))
                  | _, _ => None
                  end
            | None => None
            end
      | _, _ => None
      end
  | _ => None
  end.

Fixpoint is_ascii (s : string) : bool :=
  match s with
  | EmptyString => true
  | String c s' => (nat_of_ascii c <? 128)%nat && is_ascii s'
  end.

Definition b64decode_utf8 (s : string) : result string :=
  match b64_bytes s with
  | None => Raise (BinasciiError "Incorrect padding")
  | Some bytes =>
      if is_ascii bytes then Ok bytes
      else Raise (UnicodeDecodeError "'utf-8' codec can't decode byte")
  end.

Fixpoint digits_value (s : string) (acc : Z) : option Z :=
  match s with
  | EmptyString => Some acc
  | String c s' =>
      let n := nat_of_ascii c in
      if ((48 <=? n) && (n <=? 57))%nat
      then digits_value s' (acc * 10 + Z.of_nat (n - 48))%Z
      else None
  end.

Definition str_to_float (s : string) : option Q :=
  match s with
  | EmptyString => None
  | String c rest =>
      if Ascii.eqb c "-"%char then
        match rest with
        | EmptyString => None
        | _ => option_map (fun z => inject_Z (- z)) (digits_value rest 0%Z)
        end
      else option_map inject_Z (digits_value s 0%Z)
  end.

Definition record (album : string) (year : option pyobj) (position : option pyobj)
  : pyobj :=
  PyDict ([("album", PyStr album)]
          ++ match year with Some y => [("year", y)] | None => [] end
          ++ match position with
             | Some p => [(position_field, p)]
             | None => []
             end).

Definition int (z : Z) : pyobj := PyNum (inject_Z z).

(** The scenario of the specification: A charts at 3, B did not chart,
    C charts at 7. *)
Definition scenario : pyobj :=
  PyList [record "A" (Some (int 2000)) (Some (PyStr "3"));
          record "B" (Some (int 2000)) (Some (PyStr "-"));
          record "C" (Some (int 2001)) (Some (PyStr "7"))].

(** [[]] *)
Definition no_records : pyobj := PyList [].

(** The second record carries no year. *)
Definition missing_year : pyobj :=
  PyList [record "A" (Some (int 2000)) (Some (PyStr "3"));
          record "B" None (Some (PyStr "7"))].

(** No record carries a position. *)
Definition no_position : pyobj :=
  PyList [record "A" (Some (int 2000)) None].

(** No record carries a year. *)
Definition no_year : pyobj :=
  PyList [record "A" None (Some (PyStr "3"))].

(** One mapping from field name to column. *)
Definition column_lists : pyobj :=
  PyDict [("album", PyList [PyStr "A"]);
          ("year", PyList [int 2000]);
          (position_field, PyList [PyStr "3"])].

(** A number and a string as years. *)
Definition mixed_years : pyobj :=
  PyList [record "A" (Some (int 2000)) (Some (PyStr "3"));
          record "B" (Some (PyStr "unknown")) (Some (PyStr "7"))].

(** One record, not in a list. *)
Definition single_record : pyobj :=
  record "A" (Some (int 2000)) (Some (PyStr "3")).

(** No record carries an album. *)
Definition no_album : pyobj :=
  PyList [PyDict [("year", int 2000); (position_field, PyStr "3")]].

(** No album either, and the position is the integer 10^400. *)
Definition huge_position : pyobj :=
  PyList [PyDict [("year", int 2000); (position_field, int (10 ^ 400))]].

(** The base64 bodies of the uploads. *)
Definition scenario_body : string :=
  "W3siYWxidW0iOiJBIiwieWVhciI6MjAwMCwiVVNfcGVha19jaGFydF9wb3N0IjoiMyJ9LHsiYWxidW0iOiJCIiwieWVhciI6MjAwMCwiVVNfcGVha19jaGFydF9wb3N0IjoiLSJ9LHsiYWxidW0iOiJDIiwieWVhciI6MjAwMSwiVVNfcGVha19jaGFydF9wb3N0IjoiNyJ9XQ==".

Definition no_records_body : string := "W10=".

Definition missing_year_body : string :=
  "W3siYWxidW0iOiJBIiwieWVhciI6MjAwMCwiVVNfcGVha19jaGFydF9wb3N0IjoiMyJ9LHsiYWxidW0iOiJCIiwiVVNfcGVha19jaGFydF9wb3N0IjoiNyJ9XQ==".

Definition no_position_body : string := "W3siYWxidW0iOiJBIiwieWVhciI6MjAwMH1d".

Definition no_year_body : string :=
  "W3siYWxidW0iOiJBIiwiVVNfcGVha19jaGFydF9wb3N0IjoiMyJ9XQ==".

Definition column_lists_body : string :=
  "eyJhbGJ1bSI6WyJBIl0sInllYXIiOlsyMDAwXSwiVVNfcGVha19jaGFydF9wb3N0IjpbIjMiXX0=".

Definition mixed_years_body : string :=
  "W3siYWxidW0iOiJBIiwieWVhciI6MjAwMCwiVVNfcGVha19jaGFydF9wb3N0IjoiMyJ9LHsiYWxidW0iOiJCIiwieWVhciI6InVua25vd24iLCJVU19wZWFrX2NoYXJ0X3Bvc3QiOiI3In1d".

Definition single_record_body : string :=
  "eyJhbGJ1bSI6IkEiLCJ5ZWFyIjoyMDAwLCJVU19wZWFrX2NoYXJ0X3Bvc3QiOiIzIn0=".

Definition no_album_body : string :=
  "W3sieWVhciI6MjAwMCwiVVNfcGVha19jaGFydF9wb3N0IjoiMyJ9XQ==".

Definition huge_position_body : string :=
  "W3sieWVhciI6MjAwMCwiVVNfcGVha19jaGFydF9wb3N0IjoxMDAwMDAwMDAwMDAwMDAwMDAwMDAwMDAwMDAwMDAwMDAwMDAwMDAwMDAwMDAwMDAwMDAwMDAwMDAwMDAwMDAwMDAwMDAwMDAwMDAwMDAwMDAwMDAwMDAwMDAwMDAwMDAwMDAwMDAwMDAwMDAwMDAwMDAwMDAwMDAwMDAwMDAwMDAwMDAwMDAwMDAwMDAwMDAwMDAwMDAwMDAwMDAwMDAwMDAwMDAwMDAwMDAwMDAwMDAwMDAwMDAwMDAwMDAwMDAwMDAwMDAwMDAwMDAwMDAwMDAwMDAwMDAwMDAwMDAwMDAwMDAwMDAwMDAwMDAwMDAwMDAwMDAwMDAwMDAwMDAwMDAwMDAwMDAwMDAwMDAwMDAwMDAwMDAwMDAwMDAwMDAwMDAwMDAwMDAwMDAwMDAwMDAwMDAwMDAwMDAwMDAwMDAwMDAwMDAwMDAwMDAwMDAwMDAwMDAwMDAwMDAwMDAwMDAwMDAwMDAwMDAwMDAwMDAwMDAwMDAwMDAwMDAwMDAwMDAwMDAwMDAwMDAwMDAwMH1d".

(** The text of this body stops after the first key: it is not JSON. *)
Definition truncated_body : string := "W3siYWxidW0iOg==".

(** Each body with the value [json.loads] gives for its text. *)
Definition uploads : list (string * pyobj) :=
  [ (scenario_body, scenario);
    (no_records_body, no_records);
    (missing_year_body, missing_year);
    (no_position_body, no_position);
    (no_year_body, no_year);
    (column_lists_body, column_lists);
    (mixed_years_body, mixed_years);
    (single_record_body, single_record);
    (no_album_body, no_album);
    (huge_position_body, huge_position);
    ("NDI=", int 42) ].

Definition is_text_of (text : string) (upload : string * pyobj) : bool :=
  match b64_bytes (fst upload) with
  | Some t => String.eqb t text
  | None => false
  end.

Definition json_loads (text : string) : result pyobj :=
  match find (is_text_of text) uploads with
  | Some upload => Ok (snd upload)
  | None => Raise (JSONDecodeError "Expecting value")
  end.

(** The [contents] property the upload component delivers for a body. *)
Definition data_uri (body : string) : string :=
  ("data:application/json;base64," ++ body)%string.

Definition scenario_upload : string := data_uri scenario_body.
Definition no_records_upload : string := data_uri no_records_body.
Definition missing_year_upload : string := data_uri missing_year_body.
Definition no_position_upload : string := data_uri no_position_body.
Definition column_lists_upload : string := data_uri column_lists_body.
Definition mixed_years_upload : string := data_uri mixed_years_body.
Definition truncated_upload : string := data_uri truncated_body.
Definition no_year_upload : string := data_uri no_year_body.
Definition single_record_upload : string := data_uri single_record_body.
Definition no_album_upload : string := data_uri no_album_body.
Definition huge_position_upload : string := data_uri huge_position_body.
(** The JSON text [42]. *)
Definition scalar_upload : string := data_uri "NDI=".

(** The tables [process_album_data] returns for three of the uploads. *)
Definition scenario_table : DataFrame :=
  mkDataFrame 3
    [("album", [PyStr "A"; PyStr "B"; PyStr "C"]);
     ("year", [int 2000; int 2000; int 2001]);
     (position_field, [int 3; PyNaN; int 7])].

Definition mixed_years_table : DataFrame :=
  mkDataFrame 2
    [("album", [PyStr "A"; PyStr "B"]);
     ("year", [int 2000; PyStr "unknown"]);
     (position_field, [int 3; int 7])].

Definition no_year_table : DataFrame :=
  mkDataFrame 1
    [("album", [PyStr "A"]);
     (position_field, [int 3])].

Definition run (contents : option string) : list Figure * string :=
  update_dashboard b64decode_utf8 json_loads str_to_float contents None.

End Recorded.

(** * Vocabulary of the statements *)

(** A figure carries data when it has exactly one trace. *)
Definition populated (f : Figure) : Prop :=
  exists t, fig_data f = [t].

(** Every column has one cell per row. *)
Definition well_formed (df : DataFrame) : Prop :=
  Forall (fun kc => List.length (snd kc) = nrows df) (columns df).

(** The record has a binding for the key. *)
Definition carries (key : string) (r : list (string * pyobj)) : bool :=
  match dict_get r key with Some _ => true | None => false end.

Definition tier_labels : list string := ["Top 5"; "Top 10"; "Top 50"; "No Chart"].

(** Sum of the counts of a counted series. *)
Definition total (s : list (pyobj * nat)) : nat := list_sum (map snd s).

(** Number of cells that are not missing. *)
Definition present (col : list pyobj) : nat :=
  List.length (filter (fun v => negb (isna v)) col).

(** What the histogram cannot digest: no year column at all, or a number
    and a string among the years. *)
Inductive year_unusable (df : DataFrame) : Prop :=
| no_year_column :
    getitem df "year" = Raise (KeyError "year") -> year_unusable df
| years_not_orderable (years : list pyobj) (a b : pyobj) :
    getitem df "year" = Ok years ->
    In a years -> In b years -> is_number a = true -> is_str b = true ->
    year_unusable df.

Definition is_scalar (v : pyobj) : bool :=
  match v with
  | PyList _ | PyDict _ => false
  | _ => true
  end.

(** Outcomes of decoding that cannot become a table: the envelope, the
    base64 body or the JSON text is invalid; the top-level value is a
    scalar; it is one flat mapping (field name to scalar). *)
Inductive rejected : result pyobj -> Prop :=
| not_decodable (e : exn) : rejected (Raise e)
| top_level_scalar (v : pyobj) : is_scalar v = true -> rejected (Ok v)
| flat_mapping (kv : list (string * pyobj)) :
    forallb (fun e => is_scalar (snd e)) kv = true -> rejected (Ok (PyDict kv)).

(** Number of cells of a column equal, as keys, to a label. *)
Definition occurrences (k : pyobj) (col : list pyobj) : nat :=
  List.length (filter (fun v => key_eqb v k) col).

(** Summed counts of the groups whose label equals a key. *)
Definition weight (s : list (pyobj * nat)) (w : pyobj) : nat :=
  list_sum (map snd (filter (fun g => key_eqb (fst g) w) s)).

(** No two groups carry equal labels. *)
Fixpoint distinct_labels (s : list (pyobj * nat)) : Prop :=
  match s with
  | [] => True
  | g :: rest =>
      Forall (fun h => key_eqb (fst g) (fst h) = false) rest /\ distinct_labels rest
  end.

(** A label that can be hashed and compared: a number or a string. *)
Definition proper_label (v : pyobj) : bool :=
  is_number v || is_str v.

(** Strict order of two histogram entries by their numeric year. *)
Definition year_lt (a b : pyobj * nat) : Prop :=
  match as_number (fst a), as_number (fst b) with
  | Some p, Some q => (p < q)%Q
  | _, _ => False
  end.

(** Number of occurrences of a character in a string. *)
Fixpoint count_char (c : ascii) (s : string) : nat :=
  match s with
  | EmptyString => 0
  | String d s' => (if Ascii.eqb d c then 1 else 0) + count_char c s'
  end.

(** Position of a tier label, from best to worst. *)
Definition tier_rank (label : string) : nat :=
  if String.eqb label "Top 5" then 0
  else if String.eqb label "Top 10" then 1
  else if String.eqb label "Top 50" then 2
  else 3.

(** A year the histogram can count among numbers: a number, or missing. *)
Definition year_countable (v : pyobj) : bool :=
  is_number v || isna v.

(** [position <= bound] on a normalised cell; false on a missing one. *)
Definition at_most (bound : Q) (v : pyobj) : bool :=
  match as_number v with
  | Some q => Qle_bool q bound
  | None => false
  end.

(** The positions that fall in a tier, by its label. *)
Definition in_tier (label : string) (v : pyobj) : bool :=
  if String.eqb label "Top 5" then at_most 5 v
  else if String.eqb label "Top 10" then at_most 10 v && negb (at_most 5 v)
  else if String.eqb label "Top 50" then at_most 50 v && negb (at_most 10 v)
  else if String.eqb label "No Chart" then isna v || (is_number v && negb (at_most 50 v))
  else false.

(** The table of a list of records, some of which carry a position. *)
Definition table_of_records (str_to_float : string -> option Q)
  (recs : list (list (string * pyobj))) : DataFrame :=
  setitem (frame_of_records recs) position_field
          (to_numeric str_to_float (map (cell_of position_field) recs)).

(** * Properties *)

(** ** The result monad *)

Lemma bind_Ok_inv {A B : Type} (c : result A) (k : A -> result B) (b : B) :
  bind c k = Ok b -> exists a, c = Ok a /\ k a = Ok b.
Proof.
  destruct c as [a | e]; simpl; intros H; [exists a; auto | discriminate].
Qed.

(** Inverts every successful [bind] among the hypotheses. *)
Ltac invert_binds :=
  repeat match goal with
    | H : bind _ _ = Ok _ |- _ =>
        let a := fresh "a" in
        let Ha := fresh "Ha" in
        apply bind_Ok_inv in H; destruct H as (a & Ha & H)
    | H : Ok _ = Ok _ |- _ => injection H as H
    end.

Lemma populated_figure_of (t : trace) (title : string) : populated (figure_of t title).
Proof. exists t; reflexivity. Qed.

Lemma go_Figure_not_populated : ~ populated go_Figure.
Proof. intros [t Ht]; discriminate. Qed.

Lemma string_app_nonempty (c : ascii) (p s : string) :
  (String c p ++ s)%string <> "".
Proof. simpl; discriminate. Qed.

Section Boundary.

Variable b64decode_utf8 : string -> result string.
Variable json_loads : string -> result pyobj.
Variable str_to_float : string -> option Q.

Local Abbreviation try_body := (pipeline b64decode_utf8 json_loads str_to_float).
Local Abbreviation callback :=
  (update_dashboard b64decode_utf8 json_loads str_to_float).
Local Abbreviation load := (load_album_data b64decode_utf8 json_loads).

Lemma dashboard_figures_shape (df : DataFrame) (figures : list Figure) :
  dashboard_figures df = Ok figures ->
  List.length figures = 5 /\ Forall populated figures.
Proof.
  unfold dashboard_figures, line_fig, bar_fig, scatter_fig,
    heatmap_fig, treemap_fig.
  intros H; invert_binds; subst.
  split; [reflexivity | repeat constructor; apply populated_figure_of].
Qed.

Lemma pipeline_shape (text : string) (figures : list Figure) :
  try_body text = Ok figures ->
  List.length figures = 5 /\ Forall populated figures.
Proof.
  unfold pipeline; intros H; invert_binds.
  eapply dashboard_figures_shape; eassumption.
Qed.

(** The callback on a non-empty upload is the [try] body seen through
    the [except] clause. *)
Lemma update_dashboard_nonempty (c : ascii) (s : string) (filename : option string) :
  callback (Some (String c s)) filename =
  match try_body (String c s) with
  | Ok figures => (figures, "")
  | Raise e => (empty_figures, ("Error processing file: " ++ str_exn e)%string)
  end.
Proof. reflexivity. Qed.

(** A run whose [try] body raises ends with five empty figures and a
    message that begins with the fixed prefix. *)
Lemma failed_run (text : string) (filename : option string) (e : exn) :
  try_body text = Raise e ->
  exists msg, callback (Some text) filename = (empty_figures, msg)
              /\ msg <> "".
Proof.
  intros H. destruct text as [| c s].
  - eexists; split; [reflexivity | discriminate].
  - rewrite update_dashboard_nonempty, H.
    eexists; split; [reflexivity | apply string_app_nonempty].
Qed.


(** C10. With no upload ([None] or the empty string) the callback
    returns five empty figures and the fixed message, whatever the
    decoding and parsing functions would do: the [try] body is not run. *)
Theorem no_upload_message (filename : option string) :
  callback None filename = (repeat go_Figure 5, "Please upload a JSON file")
  /\ callback (Some "") filename
     = (repeat go_Figure 5, "Please upload a JSON file")
  /\ "Please upload a JSON file" <> "".
Proof. repeat split; discriminate. Qed.

End Boundary.

(** ** The tier rule *)

Lemma Qle_bool_false (a b : Q) : Qle_bool a b = false -> (b < a)%Q.
Proof.
  intros H. apply Qnot_le_lt. intros Hle.
  apply Qle_bool_iff in Hle. congruence.
Qed.

Section Normalised.

Variable str_to_float : string -> option Q.

Local Abbreviation normalise := (to_numeric_value str_to_float).

(** A normalised cell is NaN or a number. *)
Lemma to_numeric_value_cases (v : pyobj) :
  normalise v = PyNaN \/ exists q, normalise v = PyNum q.
Proof.
  destruct v as [| [|] | q | | s | l | d]; simpl; eauto.
  destruct (String.eqb s ""); auto.
  destruct (str_to_float s); eauto.
Qed.

Lemma tier_of_number (q : Q) :
  get_performance_tier (PyNum q) =
  Ok (if Qle_bool q 5 then "Top 5"
      else if Qle_bool q 10 then "Top 10"
      else if Qle_bool q 50 then "Top 50"
      else "No Chart").
Proof.
  unfold get_performance_tier; simpl.
  destruct (Qle_bool q 5); simpl; auto.
  destruct (Qle_bool q 10); simpl; auto.
  destruct (Qle_bool q 50); simpl; auto.
Qed.

Lemma get_performance_tier_normalised (v : pyobj) :
  v = PyNaN \/ (exists q, v = PyNum q) ->
  exists tier, get_performance_tier v = Ok tier.
Proof.
  intros [-> | [q ->]]; [eexists; reflexivity |].
  rewrite tier_of_number. eauto.
Qed.

Lemma mapM_tiers (col : list pyobj) :
  Forall (fun v => v = PyNaN \/ exists q, v = PyNum q) col ->
  exists tiers, mapM get_performance_tier col = Ok tiers
                /\ List.length tiers = List.length col.
Proof.
  induction 1 as [| v col Hv _ (tiers & IH & Hlen)]; simpl; [eauto |].
  destruct (get_performance_tier_normalised v Hv) as [tier ->]; simpl.
  rewrite IH; simpl. eexists; split; [reflexivity | simpl; now rewrite Hlen].
Qed.

Lemma to_numeric_normalised (col : list pyobj) :
  Forall (fun v => v = PyNaN \/ exists q, v = PyNum q) (to_numeric str_to_float col).
Proof.
  unfold to_numeric. apply Forall_map. apply Forall_forall.
  intros v _. apply to_numeric_value_cases.
Qed.

Lemma pd_to_numeric_Ok (col numeric : list pyobj) :
  pd_to_numeric str_to_float col = Ok numeric ->
  existsb beyond_float_range col = false
  /\ numeric = to_numeric str_to_float col.
Proof.
  unfold pd_to_numeric.
  destruct (existsb beyond_float_range col); [discriminate |].
  intros [= <-]. auto.
Qed.

(** A successful [process_album_data], step by step. *)
Lemma process_album_data_Ok (album_data : pyobj) (df : DataFrame) :
  process_album_data str_to_float album_data = Ok df ->
  exists raw col,
    pd_DataFrame album_data = Ok raw
    /\ getitem raw position_field = Ok col
    /\ existsb beyond_float_range col = false
    /\ df = setitem raw position_field (to_numeric str_to_float col).
Proof.
  unfold process_album_data. intros H.
  apply bind_Ok_inv in H. destruct H as (raw & Hraw & H).
  apply bind_Ok_inv in H. destruct H as (col & Hcol & H).
  apply bind_Ok_inv in H. destruct H as (numeric & Hnum & H).
  injection H as <-.
  destruct (pd_to_numeric_Ok col numeric Hnum) as [Hfit ->].
  exists raw, col. auto.
Qed.

Ltac number_witness :=
  match goal with
  | H : exists q, PyNum _ = PyNum q /\ _ |- _ =>
      let q := fresh "q" in
      let E := fresh "E" in
      destruct H as (q & E & H); injection E as E; subst q
  | H : exists q, PyNaN = PyNum q /\ _ |- _ =>
      let q := fresh "q" in
      let E := fresh "E" in
      destruct H as (q & E & H); discriminate E
  end.

(** C3. The tier of a normalised position.  Every cell of the normalised
    column receives exactly one of the four labels (the rule is a function
    and never raises there), chosen in the order: missing gives No Chart,
    at most 5 gives Top 5, at most 10 gives Top 10, at most 50 gives
    Top 50, anything larger gives No Chart.  The bounds are inclusive:
    5, 10 and 50 fall in Top 5, Top 10 and Top 50. *)
Theorem performance_tier_rule :
  (forall v : pyobj,
      let position := normalise v in
      exists tier,
        get_performance_tier position = Ok tier
        /\ In tier tier_labels
        /\ (tier = "Top 5" <-> exists q, position = PyNum q /\ (q <= 5)%Q)
        /\ (tier = "Top 10" <->
            exists q, position = PyNum q /\ (5 < q)%Q /\ (q <= 10)%Q)
        /\ (tier = "Top 50" <->
            exists q, position = PyNum q /\ (10 < q)%Q /\ (q <= 50)%Q)
        /\ (tier = "No Chart" <->
            isna position = true \/ exists q, position = PyNum q /\ (50 < q)%Q))
  /\ (forall col : list pyobj,
        exists tiers,
          mapM get_performance_tier (to_numeric str_to_float col) = Ok tiers
          /\ List.length tiers = List.length col)
  /\ get_performance_tier (PyNum 5) = Ok "Top 5"
  /\ get_performance_tier (PyNum 10) = Ok "Top 10"
  /\ get_performance_tier (PyNum 50) = Ok "Top 50"
  /\ NoDup tier_labels.
Proof.
  split; [| split; [| repeat split]].
  - intros v position; subst position.
    destruct (to_numeric_value_cases v) as [-> | [q ->]].
    + exists "No Chart"; split; [reflexivity |].
      split; [simpl; tauto |].
      repeat split; intros H; try discriminate H; try number_witness; auto.
    + rewrite tier_of_number.
      destruct (Qle_bool q 5) eqn:H5;
        [| destruct (Qle_bool q 10) eqn:H10;
           [| destruct (Qle_bool q 50) eqn:H50]];
        repeat match goal with
          | H : Qle_bool _ _ = true |- _ => apply Qle_bool_iff in H
          | H : Qle_bool _ _ = false |- _ => apply Qle_bool_false in H
          end;
        eexists; (split; [reflexivity |]); (split; [simpl; tauto |]);
        repeat split; intros H; try discriminate H;
        try (destruct H as [H | H]; [discriminate H |]);
        try number_witness;
        try (exfalso; lra);
        try (right; exists q); try (exists q); repeat split; auto; try lra.
  - intros col.
    destruct (mapM_tiers _ (to_numeric_normalised col)) as (tiers & Ht & Hlen).
    exists tiers. split; [exact Ht |].
    rewrite Hlen. unfold to_numeric. apply length_map.
  - repeat constructor; simpl; intuition discriminate.
Qed.

End Normalised.

(** ** Data frames *)

Lemma lookup_column_In (cols : list (string * list pyobj)) (key : string)
  (c : list pyobj) :
  lookup_column cols key = Some c -> In (key, c) cols.
Proof.
  induction cols as [| [k c0] rest IH]; simpl; [discriminate |].
  destruct (String.eqb k key) eqn:E.
  - apply String.eqb_eq in E; subst k. intros [= ->]; auto.
  - auto.
Qed.

Lemma getitem_length (df : DataFrame) (key : string) (c : list pyobj) :
  well_formed df -> getitem df key = Ok c -> List.length c = nrows df.
Proof.
  unfold well_formed, getitem; intros Hwf H.
  destruct (lookup_column (columns df) key) as [c' |] eqn:E; [| discriminate].
  injection H as ->. apply lookup_column_In in E.
  rewrite Forall_forall in Hwf. exact (Hwf _ E).
Qed.

Lemma lookup_replace_same (cols : list (string * list pyobj)) (key : string)
  (c : list pyobj) :
  lookup_column (replace_column cols key c) key = Some c.
Proof.
  induction cols as [| [k c0] rest IH]; simpl.
  - now rewrite String.eqb_refl.
  - destruct (String.eqb k key) eqn:E; simpl; rewrite E; auto.
Qed.

Lemma getitem_setitem_same (df : DataFrame) (key : string) (c : list pyobj) :
  getitem (setitem df key c) key = Ok c.
Proof. unfold getitem, setitem; simpl. now rewrite lookup_replace_same. Qed.

Lemma well_formed_setitem (df : DataFrame) (key : string) (c : list pyobj) :
  well_formed df -> List.length c = nrows df -> well_formed (setitem df key c).
Proof.
  unfold well_formed, setitem; simpl. intros Hwf Hc.
  induction (columns df) as [| [k c0] rest IH]; simpl.
  - constructor; auto.
  - inversion Hwf; subst.
    destruct (String.eqb k key); constructor; auto.
Qed.

Lemma lookup_column_map (f : list pyobj -> list pyobj)
  (cols : list (string * list pyobj)) (key : string) :
  lookup_column (map (fun kc => (fst kc, f (snd kc))) cols) key
  = option_map f (lookup_column cols key).
Proof.
  induction cols as [| [k c] rest IH]; simpl; auto.
  destruct (String.eqb k key); auto.
Qed.

Lemma getitem_boolean_index (df : DataFrame) (mask : list bool) (key : string) :
  getitem (boolean_index df mask) key
  = match getitem df key with
    | Ok c => Ok (select mask c)
    | Raise e => Raise e
    end.
Proof.
  unfold getitem, boolean_index; simpl. rewrite lookup_column_map.
  destruct (lookup_column (columns df) key); reflexivity.
Qed.

(** *** Frames built from records *)

Lemma mem_string_app (k : string) (l1 l2 : list string) :
  mem_string k (l1 ++ l2) = mem_string k l1 || mem_string k l2.
Proof.
  induction l1 as [| a l1 IH]; simpl; auto.
  rewrite IH. now rewrite orb_assoc.
Qed.

Lemma mem_string_add_keys (k : string) (ks seen : list string) :
  mem_string k (add_keys seen ks) = mem_string k seen || mem_string k ks.
Proof.
  revert seen; induction ks as [| a ks IH]; intros seen; simpl.
  - now rewrite orb_false_r.
  - rewrite IH. destruct (mem_string a seen) eqn:Ha.
    + destruct (String.eqb a k) eqn:E; simpl; auto.
      apply String.eqb_eq in E; subst a. now rewrite Ha.
    + rewrite mem_string_app; simpl. rewrite orb_false_r.
      now rewrite orb_assoc.
Qed.

Lemma mem_string_dict_keys (k : string) (r : list (string * pyobj)) :
  mem_string k (dict_keys r) = match dict_get r k with Some _ => true | None => false end.
Proof.
  induction r as [| [k' v] r IH]; simpl; auto.
  destruct (String.eqb k' k); simpl; auto.
Qed.

Lemma mem_string_union_from (k : string) (recs : list (list (string * pyobj)))
  (seen : list string) :
  mem_string k (fold_left (fun seen r => add_keys seen (dict_keys r)) recs seen)
  = mem_string k seen || existsb (carries k) recs.
Proof.
  revert seen; induction recs as [| r recs IH]; intros seen; simpl.
  - now rewrite orb_false_r.
  - rewrite IH, mem_string_add_keys, mem_string_dict_keys.
    unfold carries. now rewrite orb_assoc.
Qed.

Lemma mem_string_union_keys (k : string) (recs : list (list (string * pyobj))) :
  mem_string k (union_keys recs) = existsb (carries k) recs.
Proof. unfold union_keys. now rewrite mem_string_union_from. Qed.

Lemma lookup_labelled (f : string -> list pyobj) (keys : list string) (key : string) :
  lookup_column (map (fun k => (k, f k)) keys) key
  = if mem_string key keys then Some (f key) else None.
Proof.
  induction keys as [| k keys IH]; simpl; auto.
  destruct (String.eqb k key) eqn:E; simpl; auto.
  apply String.eqb_eq in E; now subst k.
Qed.

(** A field is a column of the frame exactly when some record carries it;
    the column then has the record's value, or NaN, on each row. *)
Lemma getitem_frame_of_records (recs : list (list (string * pyobj))) (key : string) :
  getitem (frame_of_records recs) key
  = if existsb (carries key) recs then Ok (map (cell_of key) recs)
    else Raise (KeyError key).
Proof.
  unfold getitem, frame_of_records; simpl.
  rewrite lookup_labelled, mem_string_union_keys.
  destruct (existsb (carries key) recs); reflexivity.
Qed.

Lemma records_of_dicts (recs : list (list (string * pyobj))) :
  records_of (map PyDict recs) = Some recs.
Proof.
  induction recs as [| r recs IH]; simpl; auto. now rewrite IH.
Qed.

Lemma pd_DataFrame_records (recs : list (list (string * pyobj))) :
  pd_DataFrame (PyList (map PyDict recs)) = Ok (frame_of_records recs).
Proof.
  destruct recs as [| r recs]; [reflexivity |].
  change (map PyDict (r :: recs)) with (PyDict r :: map PyDict recs).
  unfold pd_DataFrame.
  change (PyDict r :: map PyDict recs) with (map PyDict (r :: recs)).
  now rewrite records_of_dicts.
Qed.

(** ** Normalisation of the position field *)

(** C2 on the code.  A record without the position field gets the missing
    marker only when another record carries the field.  When no record
    carries it the frame has no such column, the lookup in
    [process_album_data] raises [KeyError], and the run ends on the error
    channel instead of marking the position as missing.  Normalisation
    also raises on a position that is an integer beyond float range. *)
Theorem normalisation_raises_without_column :
  dict_get [("album", PyStr "A"); ("year", PyNum 2000)] position_field = None
  /\ process_album_data Recorded.str_to_float
       (PyList [PyDict [("album", PyStr "A"); ("year", PyNum 2000)]])
     = Raise (KeyError "US_peak_chart_post")
  /\ Recorded.run (Some Recorded.no_position_upload)
     = (repeat go_Figure 5, "Error processing file: 'US_peak_chart_post'")
  /\ (exists df,
        process_album_data Recorded.str_to_float
          (PyList [PyDict [("album", PyStr "A"); ("year", PyNum 2000)];
                   PyDict [("album", PyStr "B"); ("year", PyNum 2001);
                           (position_field, PyStr "3")]])
        = Ok df
        /\ getitem df position_field = Ok [PyNaN; PyNum 3])
  /\ process_album_data Recorded.str_to_float
       (PyList [PyDict [("album", PyStr "A"); ("year", PyNum 2000);
                        (position_field, PyNum (inject_Z (10 ^ 400)))]])
     = Raise (OverflowError "int too large to convert to float").
Proof.
  split; [reflexivity |]. split; [reflexivity |]. split; [reflexivity |].
  split; [eexists; split; reflexivity |].
  vm_compute. reflexivity.
Qed.

(** ** Shape of the constructed frames *)

Lemma repeat_length_pyobj (v : pyobj) (n : nat) : List.length (repeat v n) = n.
Proof. induction n; simpl; auto. Qed.

Lemma column_of_value_raw (n : nat) (kv : list (string * pyobj)) :
  Forall (eq n) (raw_lengths kv) ->
  dict_indexes kv = [] ->
  Forall (fun e => List.length (column_of_value n [] (snd e)) = n) kv.
Proof.
  induction kv as [| [k v] kv IH]; simpl; intros Hlen Hd; [constructor |].
  destruct v; simpl in *;
    try (constructor; [apply repeat_length_pyobj | now apply IH]).
  - inversion Hlen; subst. constructor; [reflexivity | now apply IH].
  - discriminate.
Qed.

Lemma column_of_value_indexed (index : list string) (kv : list (string * pyobj)) :
  raw_lengths kv = [] ->
  Forall (fun e =>
            List.length (column_of_value (List.length index) index (snd e))
            = List.length index) kv.
Proof.
  induction kv as [| [k v] kv IH]; simpl; intros Hraw; [constructor |].
  destruct v; simpl in *;
    try (constructor; [apply repeat_length_pyobj | now apply IH]).
  - discriminate.
  - constructor; [simpl; now rewrite length_map | now apply IH].
Qed.

Lemma Forall_labelled_columns (f : pyobj -> list pyobj) (n : nat)
  (kv : list (string * pyobj)) :
  Forall (fun e => List.length (f (snd e)) = n) kv ->
  Forall (fun kc : string * list pyobj => List.length (snd kc) = n)
         (map (fun e => (fst e, f (snd e))) kv).
Proof. intros H. apply Forall_map. exact H. Qed.

Lemma well_formed_frame_of_dict (kv : list (string * pyobj)) (df : DataFrame) :
  frame_of_dict kv = Ok df -> well_formed df.
Proof.
  unfold frame_of_dict, well_formed.
  destruct kv as [| e kv]; [intros [= <-]; constructor |].
  destruct (raw_lengths (e :: kv)) as [| n ns] eqn:Hraw.
  - destruct (dict_indexes (e :: kv)) as [| d ds] eqn:Hd; [discriminate |].
    intros [= <-]; cbn [nrows columns].
    apply (Forall_labelled_columns
             (column_of_value (List.length (union_keys (d :: ds)))
                              (union_keys (d :: ds)))
             _ (e :: kv)).
    now apply column_of_value_indexed.
  - destruct (forallb (Nat.eqb n) ns) eqn:Hall; cbn [negb]; [| discriminate].
    destruct (dict_indexes (e :: kv)) as [| d ds] eqn:Hd; [| discriminate].
    intros [= <-]; cbn [nrows columns].
    apply (Forall_labelled_columns (column_of_value n []) _ (e :: kv)).
    apply column_of_value_raw; [| assumption].
    rewrite Hraw. constructor; [reflexivity |].
    rewrite forallb_forall in Hall. apply Forall_forall.
    intros m Hm. apply Nat.eqb_eq. now apply Hall.
Qed.

Lemma well_formed_frame_of_records (recs : list (list (string * pyobj))) :
  well_formed (frame_of_records recs).
Proof.
  unfold well_formed, frame_of_records; cbn [nrows columns].
  apply Forall_map; cbn [snd]. apply Forall_forall. intros k _.
  now rewrite length_map.
Qed.

Lemma well_formed_pd_DataFrame (data : pyobj) (df : DataFrame) :
  pd_DataFrame data = Ok df -> well_formed df.
Proof.
  destruct data as [| b | q | | s | items | kv]; simpl; try discriminate.
  - intros [= <-]; constructor.
  - destruct items as [| first rest]; [intros [= <-]; constructor |].
    destruct first; try (intros [= <-]; constructor).
    destruct (records_of rest); [| discriminate].
    intros [= <-]. apply well_formed_frame_of_records.
  - apply well_formed_frame_of_dict.
Qed.

Section Tables.

Variable str_to_float : string -> option Q.

Local Abbreviation ingest := (process_album_data str_to_float).

(** The table handed to the derivations has one cell per row in every
    column. *)
Lemma well_formed_process_album_data (album_data : pyobj) (df : DataFrame) :
  ingest album_data = Ok df -> well_formed df.
Proof.
  intros H.
  destruct (process_album_data_Ok _ _ _ H) as (raw & col & Hraw & Hcol & _ & ->).
  pose proof (well_formed_pd_DataFrame _ _ Hraw) as Hwf.
  apply well_formed_setitem; [assumption |].
  unfold to_numeric. rewrite length_map.
  eapply getitem_length; eassumption.
Qed.

End Tables.

(** ** Counting *)

Lemma total_bump (k : pyobj) (acc : list (pyobj * nat)) :
  total (bump k acc) = S (total acc).
Proof.
  unfold total. induction acc as [| [k' n] acc IH]; simpl; auto.
  destruct (key_eqb k' k); simpl; auto.
  rewrite IH. lia.
Qed.

Lemma total_count_values (col : list pyobj) (acc groups : list (pyobj * nat)) :
  count_values col acc = Ok groups -> total groups = total acc + present col.
Proof.
  unfold present. revert acc. induction col as [| v col IH]; intros acc; simpl.
  - intros [= <-]. lia.
  - destruct (isna v); simpl; [apply IH |].
    destruct (hashable v); [| discriminate].
    intros H. apply IH in H. rewrite total_bump in H. lia.
Qed.

Lemma total_insert_by (leb : pyobj * nat -> pyobj * nat -> bool)
  (x : pyobj * nat) (l : list (pyobj * nat)) :
  total (insert_by leb x l) = snd x + total l.
Proof.
  unfold total. induction l as [| y l IH]; simpl; auto.
  destruct (leb y x); simpl; auto. rewrite IH. lia.
Qed.

Lemma total_sort_from (leb : pyobj * nat -> pyobj * nat -> bool)
  (l acc : list (pyobj * nat)) :
  total (fold_left (fun acc x => insert_by leb x acc) l acc) = total l + total acc.
Proof.
  revert acc. induction l as [| x l IH]; intros acc; simpl; auto.
  rewrite IH, total_insert_by. unfold total; simpl. lia.
Qed.

Lemma total_sort_by (leb : pyobj * nat -> pyobj * nat -> bool)
  (l : list (pyobj * nat)) :
  total (sort_by leb l) = total l.
Proof. unfold sort_by. rewrite total_sort_from. unfold total; simpl. lia. Qed.

Lemma present_all (col : list pyobj) :
  Forall (fun v => isna v = false) col -> present col = List.length col.
Proof.
  unfold present. induction 1 as [| v col Hv _ IH]; simpl; auto.
  rewrite Hv; simpl. now rewrite IH.
Qed.

(** The counts of [value_counts] add up to the number of cells that are
    not missing. *)
Lemma total_value_counts (col : list pyobj) (counts : list (pyobj * nat)) :
  value_counts col = Ok counts -> total counts = present col.
Proof.
  unfold value_counts. intros H; invert_binds; subst.
  rewrite total_sort_by.
  match goal with
  | Hc : count_values _ _ = Ok _ |- _ => apply total_count_values in Hc; exact Hc
  end.
Qed.

Lemma total_sort_index (s sorted : list (pyobj * nat)) :
  sort_index s = Ok sorted -> total sorted = total s.
Proof.
  unfold sort_index. destruct (orderable (map fst s)); [| discriminate].
  intros [= <-]. apply total_sort_by.
Qed.

(** *** Labels of the groups *)

Lemma Forall_insert_by {A : Type} (P : A -> Prop) (leb : A -> A -> bool)
  (x : A) (l : list A) :
  P x -> Forall P l -> Forall P (insert_by leb x l).
Proof.
  intros Hx. induction 1 as [| y l Hy Hl IH]; simpl; [repeat constructor; auto |].
  destruct (leb y x); repeat constructor; auto.
Qed.

Lemma Forall_sort_by {A : Type} (P : A -> Prop) (leb : A -> A -> bool) (l : list A) :
  Forall P l -> Forall P (sort_by leb l).
Proof.
  unfold sort_by. intros H.
  assert (Hgen : forall acc, Forall P acc ->
            Forall P (fold_left (fun acc x => insert_by leb x acc) l acc)).
  { induction H as [| x l Hx Hl IH]; intros acc Hacc; simpl; auto.
    apply IH. now apply Forall_insert_by. }
  apply Hgen; constructor.
Qed.

Lemma Forall_bump (P : pyobj -> Prop) (k : pyobj) (acc : list (pyobj * nat)) :
  P k -> Forall (fun g => P (fst g)) acc -> Forall (fun g => P (fst g)) (bump k acc).
Proof.
  intros Hk. induction 1 as [| [k' n] acc Hg Hacc IH]; simpl;
    [repeat constructor; auto |].
  destruct (key_eqb k' k); constructor; auto.
Qed.

Lemma is_number_present (v : pyobj) :
  is_number v = true -> isna v = false /\ hashable v = true.
Proof. destruct v as [| [|] | | | | |]; simpl; auto; discriminate. Qed.

Lemma count_values_numbers (col : list pyobj) (acc : list (pyobj * nat)) :
  Forall (fun v => is_number v = true) col ->
  Forall (fun g => is_number (fst g) = true) acc ->
  exists groups, count_values col acc = Ok groups
                 /\ Forall (fun g => is_number (fst g) = true) groups.
Proof.
  intros Hcol. revert acc.
  induction Hcol as [| v col Hv _ IH]; intros acc Hacc; simpl; [eauto |].
  destruct (is_number_present v Hv) as [-> ->].
  apply IH. now apply (Forall_bump (fun k => is_number k = true)).
Qed.

Lemma orderable_numbers (labels : list pyobj) :
  Forall (fun v => is_number v = true) labels -> orderable labels = true.
Proof.
  intros H. unfold orderable.
  destruct labels as [| a [| b rest]]; auto.
  apply orb_true_intro; left. apply forallb_forall.
  rewrite Forall_forall in H. exact H.
Qed.

Section Derivations.

Variable str_to_float : string -> option Q.

Local Abbreviation ingest := (process_album_data str_to_float).

Lemma release_freq_total (df : DataFrame) (years : list pyobj)
  (freq : list (pyobj * nat)) :
  getitem df "year" = Ok years ->
  release_freq df = Ok freq ->
  total freq = present years.
Proof.
  unfold release_freq. intros Hy H. rewrite Hy in H; simpl in H.
  invert_binds.
  match goal with
  | Hs : sort_index _ = Ok _ |- _ => apply total_sort_index in Hs; rewrite Hs
  end.
  now apply total_value_counts.
Qed.

Lemma release_freq_numbers (df : DataFrame) (years : list pyobj) :
  getitem df "year" = Ok years ->
  Forall (fun v => is_number v = true) years ->
  exists freq, release_freq df = Ok freq.
Proof.
  intros Hy Hnum. unfold release_freq, value_counts. rewrite Hy; simpl.
  destruct (count_values_numbers years [] Hnum (Forall_nil _)) as (groups & -> & Hg).
  simpl. unfold sort_index.
  rewrite orderable_numbers; [eauto |].
  apply Forall_map. now apply Forall_sort_by.
Qed.

(** C5. In a table whose records all carry a year, the counts of the
    release-frequency histogram add up to the number of records of the
    table, whatever their chart positions; the bar chart shows exactly
    those counts.  When the years are numbers the histogram is always
    produced. *)
Theorem histogram_counts_every_record (album_data : pyobj) (df : DataFrame)
  (years : list pyobj) :
  ingest album_data = Ok df ->
  getitem df "year" = Ok years ->
  Forall (fun v => isna v = false) years ->
  (forall freq,
      release_freq df = Ok freq ->
      bar_fig df
      = Ok (figure_of (Bar (map fst freq) (map snd freq)) "Album Release Frequency")
      /\ list_sum (map snd freq) = nrows df)
  /\ (Forall (fun v => is_number v = true) years ->
      exists freq, release_freq df = Ok freq).
Proof.
  intros Hdf Hy Hall. split.
  - intros freq Hfreq. split.
    + unfold bar_fig. now rewrite Hfreq.
    + change (total freq = nrows df).
      rewrite (release_freq_total df years freq Hy Hfreq).
      rewrite present_all by assumption.
      eapply getitem_length; [| eassumption].
      eapply well_formed_process_album_data; eassumption.
  - now apply release_freq_numbers.
Qed.

End Derivations.

(** ** Selection by mask *)

Lemma select_combine {A B : Type} (mask : list bool) (a : list A) (b : list B) :
  select mask (combine a b) = combine (select mask a) (select mask b).
Proof.
  revert a b. induction mask as [| m mask IH]; intros a b; simpl; auto.
  destruct a as [| x a], b as [| y b]; simpl; destruct m; simpl; auto.
  - now destruct (select mask a).
  - now rewrite IH.
Qed.

Lemma select_map_filter {A : Type} (f : A -> bool) (l : list A) :
  select (map f l) l = filter f l.
Proof.
  induction l as [| x l IH]; simpl; auto.
  destruct (f x); now rewrite IH.
Qed.

Lemma map_snd_combine_same {A B : Type} (a : list A) (b : list B) :
  List.length a = List.length b -> map snd (combine a b) = b.
Proof.
  revert b. induction a as [| x a IH]; intros [| y b]; simpl; try discriminate; auto.
  intros [= H]. now rewrite IH.
Qed.

Lemma select_length_same {A B : Type} (mask : list bool) (a : list A) (b : list B) :
  List.length a = List.length b ->
  List.length (select mask a) = List.length (select mask b).
Proof.
  revert a b. induction mask as [| m mask IH]; intros [| x a] [| y b];
    simpl; try discriminate; auto.
  - now destruct m.
  - intros [= H]. destruct m; simpl; auto.
Qed.

(** Cutting two columns of one table by the mask of the second keeps the
    rows whose second cell is present, in their order. *)
Lemma select_notna_rows (a p : list pyobj) :
  List.length a = List.length p ->
  combine (select (notna p) a) (select (notna p) p)
  = filter (fun row => negb (isna (snd row))) (combine a p).
Proof.
  intros Hlen. rewrite <- select_combine.
  rewrite <- (select_map_filter (fun row => negb (isna (snd row)))).
  f_equal. unfold notna.
  rewrite <- (map_snd_combine_same a p Hlen) at 1.
  now rewrite map_map.
Qed.

Section ChartingSubset.

Variable str_to_float : string -> option Q.

Local Abbreviation ingest := (process_album_data str_to_float).

(** C6. The line series of a processed table pairs album and position of
    exactly the records whose position is present, in the order of the
    table: zipping the two plotted columns gives the rows of the table
    filtered by presence of the position.  Filtering keeps relative order
    and does no sorting. *)
Theorem line_series_is_charting_subset (album_data : pyobj) (df : DataFrame)
  (albums positions : list pyobj) :
  ingest album_data = Ok df ->
  getitem df "album" = Ok albums ->
  getitem df position_field = Ok positions ->
  exists subset x y,
    charting_df df = Ok subset
    /\ line_fig subset
       = Ok (figure_of (Scatter x y [] "lines+markers") "Chart Performance Over Time")
    /\ combine x y
       = filter (fun row => negb (isna (snd row))) (combine albums positions)
    /\ List.length x = List.length y.
Proof.
  intros Hdf Ha Hp.
  pose proof (well_formed_process_album_data _ _ _ Hdf) as Hwf.
  assert (Hlen : List.length albums = List.length positions).
  { rewrite (getitem_length _ _ _ Hwf Ha), (getitem_length _ _ _ Hwf Hp).
    reflexivity. }
  exists (boolean_index df (notna positions)),
         (select (notna positions) albums), (select (notna positions) positions).
  split; [unfold charting_df; now rewrite Hp |].
  split; [unfold line_fig; rewrite !getitem_boolean_index, Ha, Hp; reflexivity |].
  split; [now apply select_notna_rows | now apply select_length_same].
Qed.

End ChartingSubset.

(** ** The heat grid *)

Lemma reshape_rows_1_shape {A : Type} (a : list A) :
  List.length (reshape_rows_1 a) = List.length a
  /\ Forall (fun row => List.length row = 1) (reshape_rows_1 a).
Proof.
  unfold reshape_rows_1. split; [apply length_map |].
  apply Forall_map. apply Forall_forall. reflexivity.
Qed.

(** C7 on the code.  For the scenario of the specification (A charts at 3
    in 2000, C at 7 in 2001) the heat map is given two column labels, one
    row label, and the matrix [[3], [7]]: two rows of one cell each, not
    the single row [3, 7] under the two year columns.  In general the
    matrix has one row per charting record and one cell per row. *)
Theorem heatmap_matrix_of_scenario :
  nth_error
    (fst (Recorded.run (Some Recorded.scenario_upload))) 3
  = Some (figure_of (Heatmap [[PyNum 3]; [PyNum 7]]
                             [PyNum 2000; PyNum 2001]
                             ["Chart Position"])
                    "Year vs Chart Performance")
  /\ reshape_rows_1 [PyNum 3; PyNum 7] <> [[PyNum 3; PyNum 7]]
  /\ (forall col : list pyobj,
        List.length (reshape_rows_1 col) = List.length col
        /\ Forall (fun row => List.length row = 1) (reshape_rows_1 col)).
Proof.
  split; [vm_compute; reflexivity |].
  split; [discriminate | intros col; apply reshape_rows_1_shape].
Qed.

(** ** The empty collection *)

(** C4 on the code.  The empty list gives a frame without columns, so the
    lookup of the position column raises [KeyError] inside
    [process_album_data], whatever the library functions are; the callback
    reports the failure instead of five empty views and an empty message. *)
Theorem empty_collection_is_rejected :
  (forall str_to_float,
      process_album_data str_to_float (PyList [])
      = Raise (KeyError "US_peak_chart_post"))
  /\ load_album_data Recorded.b64decode_utf8 Recorded.json_loads
       Recorded.no_records_upload = Ok (PyList [])
  /\ Recorded.run (Some Recorded.no_records_upload)
     = (repeat go_Figure 5, "Error processing file: 'US_peak_chart_post'").
Proof. repeat split. Qed.

(** ** Years that cannot be counted or ordered *)

Section Labels.

(** A class of labels closed under the equality of keys. *)
Variable P : pyobj -> bool.
Hypothesis P_key : forall k v, key_eqb k v = true -> P v = true -> P k = true.

Lemma existsb_bump_new (k : pyobj) (acc : list (pyobj * nat)) :
  P k = true -> existsb (fun g => P (fst g)) (bump k acc) = true.
Proof.
  intros Hk. induction acc as [| [k' n] acc IH]; simpl.
  - now rewrite Hk.
  - destruct (key_eqb k' k) eqn:E; simpl.
    + now rewrite (P_key _ _ E Hk).
    + rewrite IH. apply orb_true_r.
Qed.

Lemma existsb_bump_old (k : pyobj) (acc : list (pyobj * nat)) :
  existsb (fun g => P (fst g)) acc = true ->
  existsb (fun g => P (fst g)) (bump k acc) = true.
Proof.
  induction acc as [| [k' n] acc IH]; simpl; [discriminate |].
  destruct (key_eqb k' k); simpl; auto.
  intros H. apply orb_true_iff in H as [H | H].
  - now rewrite H.
  - rewrite IH by assumption. apply orb_true_r.
Qed.

Lemma existsb_count_values (col : list pyobj) (acc groups : list (pyobj * nat)) :
  count_values col acc = Ok groups ->
  existsb (fun g => P (fst g)) acc = true
  \/ existsb (fun v => P v && negb (isna v)) col = true ->
  existsb (fun g => P (fst g)) groups = true.
Proof.
  revert acc. induction col as [| v col IH]; intros acc; simpl.
  - intros [= <-] [H | H]; [assumption | discriminate].
  - destruct (isna v) eqn:Hna; simpl.
    + rewrite andb_false_r; simpl. apply IH.
    + destruct (hashable v); [| discriminate].
      intros Hc H. apply (IH _ Hc).
      rewrite andb_true_r in H.
      destruct H as [H | H]; [left; now apply existsb_bump_old |].
      apply orb_true_iff in H as [H | H]; [left; now apply existsb_bump_new | now right].
Qed.

Lemma existsb_insert_by (leb : pyobj * nat -> pyobj * nat -> bool)
  (x : pyobj * nat) (l : list (pyobj * nat)) :
  existsb (fun g => P (fst g)) (insert_by leb x l)
  = P (fst x) || existsb (fun g => P (fst g)) l.
Proof.
  induction l as [| y l IH]; simpl; auto.
  destruct (leb y x); simpl; auto.
  rewrite IH. destruct (P (fst x)), (P (fst y)); reflexivity.
Qed.

Lemma existsb_sort_by (leb : pyobj * nat -> pyobj * nat -> bool)
  (l : list (pyobj * nat)) :
  existsb (fun g => P (fst g)) l = true ->
  existsb (fun g => P (fst g)) (sort_by leb l) = true.
Proof.
  unfold sort_by.
  assert (Hgen : forall acc,
            existsb (fun g => P (fst g)) acc = true
            \/ existsb (fun g => P (fst g)) l = true ->
            existsb (fun g => P (fst g))
                    (fold_left (fun acc x => insert_by leb x acc) l acc) = true).
  { induction l as [| x l IH]; intros acc; simpl.
    - intros [H | H]; [assumption | discriminate].
    - intros H. apply IH. rewrite existsb_insert_by.
      destruct H as [H | H].
      + left. rewrite H. apply orb_true_r.
      + apply orb_true_iff in H as [H | H]; [left; now rewrite H | now right]. }
  intros H. apply Hgen. now right.
Qed.

End Labels.

Lemma key_eqb_number (k v : pyobj) :
  key_eqb k v = true -> is_number v = true -> is_number k = true.
Proof.
  unfold key_eqb, is_number.
  destruct k as [| [|] | | | | |], v as [| [|] | | | | |]; simpl; auto; discriminate.
Qed.

Lemma key_eqb_str (k v : pyobj) :
  key_eqb k v = true -> is_str v = true -> is_str k = true.
Proof.
  unfold key_eqb.
  destruct v as [| | | | t | |]; simpl; try discriminate.
  destruct k as [| [|] | | | s | |]; simpl; auto; discriminate.
Qed.

Lemma number_not_str (v : pyobj) : is_number v = true -> is_str v = false.
Proof. destruct v; simpl; auto; discriminate. Qed.

(** Labels holding both a number and a string cannot be sorted. *)
Lemma orderable_mixed (labels : list pyobj) :
  existsb is_number labels = true ->
  existsb is_str labels = true ->
  orderable labels = false.
Proof.
  intros Hn Hs. unfold orderable.
  destruct labels as [| a [| b rest]]; [discriminate | |].
  - simpl in Hn, Hs. rewrite orb_false_r in Hn, Hs.
    rewrite (number_not_str a Hn) in Hs. discriminate.
  - apply orb_false_iff. split.
    + apply not_true_is_false. intros Hall. rewrite forallb_forall in Hall.
      apply existsb_exists in Hs as (s & Hin & Hstr).
      specialize (Hall s Hin). rewrite (number_not_str s Hall) in Hstr. discriminate.
    + apply not_true_is_false. intros Hall. rewrite forallb_forall in Hall.
      apply existsb_exists in Hn as (n & Hin & Hnum).
      specialize (Hall n Hin). rewrite (number_not_str n Hnum) in Hall. discriminate.
Qed.

Lemma existsb_labels (P : pyobj -> bool) (s : list (pyobj * nat)) :
  existsb P (map fst s) = existsb (fun g => P (fst g)) s.
Proof. induction s as [| g s IH]; simpl; auto. now rewrite IH. Qed.

Lemma existsb_present (P : pyobj -> bool) (col : list pyobj) (v : pyobj) :
  In v col -> P v = true -> isna v = false ->
  existsb (fun v => P v && negb (isna v)) col = true.
Proof.
  intros Hin Hp Hna. apply existsb_exists. exists v. split; [assumption |].
  now rewrite Hp, Hna.
Qed.

Lemma count_values_unhashable (col : list pyobj) (acc : list (pyobj * nat)) (v : pyobj) :
  In v col -> hashable v = false -> exists e, count_values col acc = Raise e.
Proof.
  revert acc. induction col as [| w col IH]; intros acc; simpl; [tauto |].
  intros [-> | Hin] Hv.
  - assert (Hna : isna v = false) by (destruct v; simpl in *; auto; discriminate).
    rewrite Hna, Hv. eauto.
  - destruct (isna w); [now apply IH |].
    destruct (hashable w); [now apply IH | eauto].
Qed.

Lemma count_values_raises_TypeError (col : list pyobj) (acc : list (pyobj * nat))
  (e : exn) :
  count_values col acc = Raise e -> exists msg, e = TypeError msg.
Proof.
  revert acc. induction col as [| v col IH]; intros acc; simpl; [discriminate |].
  destruct (isna v); [apply IH |].
  destruct (hashable v); [apply IH |].
  intros [= <-]. eauto.
Qed.

(** The histogram derivation raises on unusable years: [KeyError] for the
    missing column, [TypeError] for years that cannot be ordered. *)
Lemma release_freq_unusable (df : DataFrame) :
  year_unusable df ->
  exists e, release_freq df = Raise e
            /\ (e = KeyError "year" \/ exists msg, e = TypeError msg).
Proof.
  intros [Hy | years a b Hy Ha Hb Hnum Hstr];
    unfold release_freq; rewrite Hy; simpl; [eauto |].
  unfold value_counts.
  destruct (count_values years []) as [groups | e] eqn:Hc; simpl.
  - unfold sort_index. rewrite orderable_mixed; [eauto |  |];
      rewrite existsb_labels; apply existsb_sort_by.
    + apply (existsb_count_values is_number key_eqb_number _ _ _ Hc). right.
      apply (existsb_present is_number years a Ha Hnum).
      now apply is_number_present.
    + apply (existsb_count_values is_str key_eqb_str _ _ _ Hc). right.
      apply (existsb_present is_str years b Hb Hstr).
      destruct b; simpl in *; auto; discriminate.
  - exists e. split; [reflexivity |]. right.
    eapply count_values_raises_TypeError; eassumption.
Qed.

Lemma dashboard_figures_bar_raises (df : DataFrame) (e : exn) :
  release_freq df = Raise e -> exists e', dashboard_figures df = Raise e'.
Proof.
  intros H. unfold dashboard_figures, bar_fig. rewrite H.
  destruct (charting_df df) as [c |]; simpl; [| eauto].
  destruct (line_fig c); simpl; eauto.
Qed.

(** ** Payloads the ingestion rejects *)

Lemma flat_mapping_no_columns (kv : list (string * pyobj)) :
  forallb (fun e => is_scalar (snd e)) kv = true ->
  raw_lengths kv = [] /\ dict_indexes kv = [].
Proof.
  induction kv as [| [k v] kv IH]; simpl; auto.
  intros H. apply andb_true_iff in H as [Hv Hkv].
  destruct (IH Hkv) as [-> ->].
  destruct v; simpl in *; auto; discriminate.
Qed.

Section Rejection.

Variable b64decode_utf8 : string -> result string.
Variable json_loads : string -> result pyobj.
Variable str_to_float : string -> option Q.

Local Abbreviation try_body := (pipeline b64decode_utf8 json_loads str_to_float).
Local Abbreviation callback :=
  (update_dashboard b64decode_utf8 json_loads str_to_float).
Local Abbreviation load := (load_album_data b64decode_utf8 json_loads).
Local Abbreviation ingest := (process_album_data str_to_float).

Lemma ingest_rejects (v : pyobj) :
  rejected (Ok v) -> exists e, ingest v = Raise e.
Proof.
  intros H. inversion H as [| v' Hs | kv Hflat]; subst;
    unfold process_album_data.
  - destruct v; simpl in *; eauto; discriminate.
  - destruct kv as [| e kv]; [simpl; eauto |].
    destruct (flat_mapping_no_columns _ Hflat) as [Hraw Hd].
    change (pd_DataFrame (PyDict (e :: kv))) with (frame_of_dict (e :: kv)).
    unfold frame_of_dict. rewrite Hraw, Hd. simpl; eauto.
Qed.


(** C8, as amended.  When no record of the table carries a year, or the
    years hold both a number and a string, the histogram derivation
    raises ([KeyError] for the missing column, [TypeError] for the years
    that cannot be ordered) and the whole run fails: five empty figures
    are returned with a non-empty message. *)
Theorem unusable_year_fails_the_run (text : string) (filename : option string)
  (album_data : pyobj) (df : DataFrame) :
  load text = Ok album_data ->
  ingest album_data = Ok df ->
  year_unusable df ->
  (exists e0, release_freq df = Raise e0
              /\ (e0 = KeyError "year" \/ exists m, e0 = TypeError m))
  /\ exists e msg,
       try_body text = Raise e
       /\ callback (Some text) filename = (empty_figures, msg)
       /\ msg <> "".
Proof.
  intros Hload Hdf Hyear.
  destruct (release_freq_unusable df Hyear) as (e0 & Hfreq & Hkind).
  split; [exists e0; auto |].
  destruct (dashboard_figures_bar_raises df e0 Hfreq) as [e He].
  assert (Hrun : try_body text = Raise e).
  { unfold pipeline. rewrite Hload; simpl. rewrite Hdf; simpl. exact He. }
  exists e.
  destruct (failed_run b64decode_utf8 json_loads str_to_float text filename e Hrun)
    as (msg & Hmsg & Hne).
  exists msg; auto.
Qed.

End Rejection.

(** ** The derivations never fail on a table with numeric years *)

Lemma count_values_strings (labels : list string) (acc : list (pyobj * nat)) :
  exists groups, count_values (map PyStr labels) acc = Ok groups.
Proof.
  revert acc. induction labels as [| s labels IH]; intros acc; simpl; eauto.
Qed.

Section Aggregation.

Variable str_to_float : string -> option Q.

Lemma position_column_normalised (album_data : pyobj) (df : DataFrame) :
  process_album_data str_to_float album_data = Ok df ->
  exists positions,
    getitem df position_field = Ok positions
    /\ Forall (fun v => v = PyNaN \/ exists q, v = PyNum q) positions.
Proof.
  intros H.
  destruct (process_album_data_Ok _ _ _ H) as (raw & col & _ & _ & _ & ->).
  eexists. split; [apply getitem_setitem_same | apply to_numeric_normalised].
Qed.

(** On a processed table that has the album and year columns, with
    numbers as years, the five figures are always built; this covers the
    table without rows. *)
Lemma dashboard_figures_total (album_data : pyobj) (df : DataFrame)
  (albums years : list pyobj) :
  process_album_data str_to_float album_data = Ok df ->
  getitem df "album" = Ok albums ->
  getitem df "year" = Ok years ->
  Forall (fun v => is_number v = true) years ->
  exists figures, dashboard_figures df = Ok figures.
Proof.
  intros Hdf Ha Hy Hnum.
  destruct (position_column_normalised _ _ Hdf) as (positions & Hp & Hnorm).
  destruct (release_freq_numbers df years Hy Hnum) as [freq Hfreq].
  destruct (mapM_tiers positions Hnorm) as (tiers & Htiers & _).
  destruct (count_values_strings tiers []) as [groups Hgroups].
  unfold dashboard_figures, charting_df, line_fig, bar_fig, scatter_fig,
    heatmap_fig, treemap_fig, performance_tiers, value_counts.
  rewrite Hp; simpl.
  rewrite !getitem_boolean_index, Ha, Hp, Hy; simpl.
  rewrite Hfreq; simpl. rewrite Htiers; simpl.
  rewrite getitem_setitem_same; simpl.
  rewrite Hgroups; simpl. eauto.
Qed.

End Aggregation.

(** ** Instances on the recorded uploads *)

(** Instance of C5: the scenario has three records and the counts 2 and 1. *)
Lemma histogram_counts_every_record_witness :
  process_album_data Recorded.str_to_float Recorded.scenario
  = Ok Recorded.scenario_table
  /\ getitem Recorded.scenario_table "year" = Ok [PyNum 2000; PyNum 2000; PyNum 2001]
  /\ Forall (fun v => isna v = false) [PyNum 2000; PyNum 2000; PyNum 2001]
  /\ (forall freq,
        release_freq Recorded.scenario_table = Ok freq ->
        bar_fig Recorded.scenario_table
        = Ok (figure_of (Bar (map fst freq) (map snd freq)) "Album Release Frequency")
        /\ list_sum (map snd freq) = 3)
  /\ release_freq Recorded.scenario_table = Ok [(PyNum 2000, 2); (PyNum 2001, 1)].
Proof.
  split; [reflexivity |]. split; [reflexivity |].
  split; [repeat constructor |].
  split; [| reflexivity].
  apply (histogram_counts_every_record Recorded.str_to_float Recorded.scenario
           Recorded.scenario_table [PyNum 2000; PyNum 2000; PyNum 2001]);
    [reflexivity | reflexivity | repeat constructor].
Defined.

(** Instance of C6: in the scenario only A and C chart, in that order. *)
Lemma line_series_is_charting_subset_witness :
  process_album_data Recorded.str_to_float Recorded.scenario
  = Ok Recorded.scenario_table
  /\ getitem Recorded.scenario_table "album" = Ok [PyStr "A"; PyStr "B"; PyStr "C"]
  /\ getitem Recorded.scenario_table position_field = Ok [PyNum 3; PyNaN; PyNum 7]
  /\ exists subset x y,
       charting_df Recorded.scenario_table = Ok subset
       /\ line_fig subset
          = Ok (figure_of (Scatter x y [] "lines+markers")
                          "Chart Performance Over Time")
       /\ combine x y = [(PyStr "A", PyNum 3); (PyStr "C", PyNum 7)]
       /\ List.length x = List.length y.
Proof.
  split; [reflexivity |]. split; [reflexivity |]. split; [reflexivity |].
  apply (line_series_is_charting_subset Recorded.str_to_float Recorded.scenario
           Recorded.scenario_table
           [PyStr "A"; PyStr "B"; PyStr "C"] [PyNum 3; PyNaN; PyNum 7]);
    reflexivity.
Defined.

(** Instances of C8 as amended: a number and a string as years, and an
    upload in which no record carries a year. *)
Lemma unusable_year_fails_the_run_witness :
  (load_album_data Recorded.b64decode_utf8 Recorded.json_loads
     Recorded.mixed_years_upload = Ok Recorded.mixed_years
   /\ process_album_data Recorded.str_to_float Recorded.mixed_years
      = Ok Recorded.mixed_years_table
   /\ year_unusable Recorded.mixed_years_table
   /\ (exists e0, release_freq Recorded.mixed_years_table = Raise e0
                  /\ (e0 = KeyError "year" \/ exists m, e0 = TypeError m))
   /\ exists e msg,
        pipeline Recorded.b64decode_utf8 Recorded.json_loads Recorded.str_to_float
          Recorded.mixed_years_upload = Raise e
        /\ Recorded.run (Some Recorded.mixed_years_upload) = (repeat go_Figure 5, msg)
        /\ msg <> "")
  /\ (load_album_data Recorded.b64decode_utf8 Recorded.json_loads
        Recorded.no_year_upload = Ok Recorded.no_year
      /\ process_album_data Recorded.str_to_float Recorded.no_year
         = Ok Recorded.no_year_table
      /\ year_unusable Recorded.no_year_table
      /\ (exists e0, release_freq Recorded.no_year_table = Raise e0
                     /\ (e0 = KeyError "year" \/ exists m, e0 = TypeError m))
      /\ exists e msg,
           pipeline Recorded.b64decode_utf8 Recorded.json_loads Recorded.str_to_float
             Recorded.no_year_upload = Raise e
           /\ Recorded.run (Some Recorded.no_year_upload) = (repeat go_Figure 5, msg)
           /\ msg <> "").
Proof.
  assert (Hmixed : year_unusable Recorded.mixed_years_table).
  { apply (years_not_orderable _ [PyNum 2000; PyStr "unknown"]
             (PyNum 2000) (PyStr "unknown"));
      [reflexivity | simpl; auto | simpl; auto | reflexivity | reflexivity]. }
  assert (Hnone : year_unusable Recorded.no_year_table).
  { apply no_year_column. reflexivity. }
  split.
  - split; [reflexivity |]. split; [reflexivity |]. split; [exact Hmixed |].
    apply (unusable_year_fails_the_run
             Recorded.b64decode_utf8 Recorded.json_loads Recorded.str_to_float
             Recorded.mixed_years_upload None
             Recorded.mixed_years Recorded.mixed_years_table);
      [reflexivity | reflexivity | exact Hmixed].
  - split; [reflexivity |]. split; [reflexivity |]. split; [exact Hnone |].
    apply (unusable_year_fails_the_run
             Recorded.b64decode_utf8 Recorded.json_loads Recorded.str_to_float
             Recorded.no_year_upload None
             Recorded.no_year Recorded.no_year_table);
      [reflexivity | reflexivity | exact Hnone].
Defined.

(** C8, as stated, fails: the second record of this upload carries no
    year, the run succeeds, the record is left out of the histogram and
    kept, with a NaN year, in the scatter series. *)
Lemma record_without_year_is_accepted :
  load_album_data Recorded.b64decode_utf8 Recorded.json_loads
    Recorded.missing_year_upload
  = Ok (PyList [PyDict [("album", PyStr "A"); ("year", PyNum 2000);
                        (position_field, PyStr "3")];
                PyDict [("album", PyStr "B"); (position_field, PyStr "7")]])
  /\ dict_get [("album", PyStr "B"); (position_field, PyStr "7")] "year" = None
  /\ Recorded.run (Some Recorded.missing_year_upload)
     = ([figure_of (Scatter [PyStr "A"; PyStr "B"] [PyNum 3; PyNum 7] []
                            "lines+markers")
                   "Chart Performance Over Time";
         figure_of (Bar [PyNum 2000] [1]) "Album Release Frequency";
         figure_of (Scatter [PyNum 2000; PyNaN] [PyNum 3; PyNum 7]
                            [PyStr "A"; PyStr "B"] "markers")
                   "Year vs Chart Position";
         figure_of (Heatmap [[PyNum 3]; [PyNum 7]] [PyNum 2000; PyNaN]
                            ["Chart Position"])
                   "Year vs Chart Performance";
         figure_of (Treemap [PyStr "Top 5"; PyStr "Top 10"] [""; ""] [1; 1])
                   "Album Performance Distribution"],
        "").
Proof. repeat split. Qed.



(** ** Runs of the recorded uploads *)

(** The scenario of the specification: A and C in the line and scatter
    series, the histogram 2000: 2, 2001: 1, and one album in each of
    Top 5, No Chart and Top 10. *)
Example scenario_run :
  Recorded.run (Some Recorded.scenario_upload)
  = ([figure_of (Scatter [PyStr "A"; PyStr "C"] [PyNum 3; PyNum 7] []
                         "lines+markers")
                "Chart Performance Over Time";
      figure_of (Bar [PyNum 2000; PyNum 2001] [2; 1]) "Album Release Frequency";
      figure_of (Scatter [PyNum 2000; PyNum 2001] [PyNum 3; PyNum 7]
                         [PyStr "A"; PyStr "C"] "markers")
                "Year vs Chart Position";
      figure_of (Heatmap [[PyNum 3]; [PyNum 7]] [PyNum 2000; PyNum 2001]
                         ["Chart Position"])
                "Year vs Chart Performance";
      figure_of (Treemap [PyStr "Top 5"; PyStr "No Chart"; PyStr "Top 10"]
                         [""; ""; ""] [1; 1; 1])
                "Album Performance Distribution"],
     "").
Proof. vm_compute. reflexivity. Qed.

(** A contents string without the comma of the envelope. *)
Example envelope_without_comma :
  Recorded.run (Some "W10=")
  = (repeat go_Figure 5,
     "Error processing file: not enough values to unpack (expected 2, got 1)").
Proof. reflexivity. Qed.

(** The JSON text [42]. *)
Example scalar_upload_fails :
  Recorded.run (Some (Recorded.data_uri "NDI="))
  = (repeat go_Figure 5,
     "Error processing file: DataFrame constructor not properly called!").
Proof. reflexivity. Qed.

(** One record outside a list. *)
Example single_record_fails :
  Recorded.run (Some (Recorded.data_uri Recorded.single_record_body))
  = (repeat go_Figure 5,
     "Error processing file: If using all scalar values, you must pass an index").
Proof. reflexivity. Qed.

(** No record carries a year: the histogram cannot find the column. *)
Example no_year_fails :
  Recorded.run (Some (Recorded.data_uri Recorded.no_year_body))
  = (repeat go_Figure 5, "Error processing file: 'year'").
Proof. reflexivity. Qed.

(** * Further properties of the derivations *)

(** ** Equality of labels *)

Lemma key_eqb_sym (a b : pyobj) : key_eqb a b = key_eqb b a.
Proof.
  unfold key_eqb.
  destruct a as [| [|] | p | | s | |], b as [| [|] | q | | t | |]; simpl;
    auto using Qeq_bool_comm, String.eqb_sym.
Qed.

Lemma key_eqb_proper_refl (v : pyobj) : proper_label v = true -> key_eqb v v = true.
Proof.
  unfold proper_label, key_eqb.
  destruct v as [| [|] | q | | s | |]; simpl; try discriminate; intros _;
    auto using Qeq_bool_refl, String.eqb_refl.
Qed.

Lemma key_eqb_proper_l (a b : pyobj) : key_eqb a b = true -> proper_label a = true.
Proof.
  unfold key_eqb, proper_label.
  destruct a as [| [|] | p | | s | |], b as [| [|] | q | | t | |]; simpl;
    auto; discriminate.
Qed.

(** Equal labels are equal to the same things. *)
Lemma key_eqb_congr (a b w : pyobj) :
  key_eqb a b = true -> key_eqb a w = key_eqb b w.
Proof.
  intros Hab.
  destruct a as [| [|] | p | | s | |], b as [| [|] | q | | t | |];
    try discriminate Hab;
    destruct w as [| [|] | r | | u | |];
    unfold key_eqb in *; cbn [as_number] in *;
    try reflexivity; try discriminate Hab;
    try (apply String.eqb_eq in Hab; now subst);
    apply Qeq_bool_iff in Hab; apply eq_true_iff_eq;
    rewrite !Qeq_bool_iff; now rewrite Hab.
Qed.

Lemma key_eqb_missing (v w : pyobj) : isna v = true -> key_eqb v w = false.
Proof. destruct v; simpl; try discriminate; intros _; now destruct w. Qed.

Lemma present_hashable_proper (v : pyobj) :
  isna v = false -> hashable v = true -> proper_label v = true.
Proof. destruct v as [| [|] | | | | |]; simpl; auto; discriminate. Qed.

(** ** What [value_counts] counts *)

Lemma weight_bump (v w : pyobj) (acc : list (pyobj * nat)) :
  weight (bump v acc) w = weight acc w + (if key_eqb v w then 1 else 0).
Proof.
  unfold weight. induction acc as [| [k n] acc IH]; simpl.
  - destruct (key_eqb v w); reflexivity.
  - destruct (key_eqb k v) eqn:Hkv; simpl.
    + rewrite <- (key_eqb_congr k v w Hkv).
      destruct (key_eqb k w); simpl; lia.
    + destruct (key_eqb k w); simpl; rewrite IH; lia.
Qed.

Lemma weight_count_values (col : list pyobj) (acc groups : list (pyobj * nat))
  (w : pyobj) :
  count_values col acc = Ok groups ->
  weight groups w = weight acc w + occurrences w col.
Proof.
  unfold occurrences. revert acc.
  induction col as [| v col IH]; intros acc; simpl.
  - intros [= <-]. lia.
  - destruct (isna v) eqn:Hna.
    + rewrite (key_eqb_missing v w Hna). apply IH.
    + destruct (hashable v); [| discriminate].
      intros H. apply IH in H. rewrite weight_bump in H.
      destruct (key_eqb v w); simpl; lia.
Qed.

Lemma Forall_keys_count_values (P : pyobj -> Prop) (col : list pyobj)
  (acc groups : list (pyobj * nat)) :
  (forall v, In v col -> isna v = false -> hashable v = true -> P v) ->
  Forall (fun g => P (fst g)) acc ->
  count_values col acc = Ok groups ->
  Forall (fun g => P (fst g)) groups.
Proof.
  revert acc. induction col as [| v col IH]; intros acc Hcol Hacc; simpl.
  - now intros [= <-].
  - destruct (isna v) eqn:Hna.
    + apply IH; auto. intros u Hu. apply Hcol. now right.
    + destruct (hashable v) eqn:Hh; [| discriminate].
      apply IH.
      * intros u Hu. apply Hcol. now right.
      * apply Forall_bump; auto. apply Hcol; auto. now left.
Qed.

Lemma distinct_labels_bump (v : pyobj) (acc : list (pyobj * nat)) :
  distinct_labels acc -> distinct_labels (bump v acc).
Proof.
  induction acc as [| [k n] acc IH]; simpl; [auto |].
  intros [Hk Hacc]. destruct (key_eqb k v) eqn:Hkv; simpl.
  - auto.
  - split; [| auto].
    apply (Forall_bump (fun u => key_eqb k u = false)); assumption.
Qed.

Lemma distinct_labels_count_values (col : list pyobj)
  (acc groups : list (pyobj * nat)) :
  distinct_labels acc -> count_values col acc = Ok groups -> distinct_labels groups.
Proof.
  revert acc. induction col as [| v col IH]; intros acc Hacc; simpl.
  - now intros [= <-].
  - destruct (isna v); [now apply IH |].
    destruct (hashable v); [| discriminate].
    apply IH. now apply distinct_labels_bump.
Qed.

Lemma positive_bump (v : pyobj) (acc : list (pyobj * nat)) :
  Forall (fun g => 1 <= snd g) acc -> Forall (fun g => 1 <= snd g) (bump v acc).
Proof.
  induction 1 as [| [k n] acc Hg Hacc IH]; simpl; [repeat constructor |].
  destruct (key_eqb k v); constructor; simpl in *; auto; lia.
Qed.

Lemma positive_count_values (col : list pyobj) (acc groups : list (pyobj * nat)) :
  Forall (fun g => 1 <= snd g) acc ->
  count_values col acc = Ok groups ->
  Forall (fun g => 1 <= snd g) groups.
Proof.
  revert acc. induction col as [| v col IH]; intros acc Hacc; simpl.
  - now intros [= <-].
  - destruct (isna v); [now apply IH |].
    destruct (hashable v); [| discriminate].
    apply IH. now apply positive_bump.
Qed.

Lemma weight_absent (s : list (pyobj * nat)) (w : pyobj) :
  Forall (fun h => key_eqb (fst h) w = false) s -> weight s w = 0.
Proof.
  unfold weight. induction 1 as [| h s Hh _ IH]; simpl; auto.
  now rewrite Hh.
Qed.

(** In a series with distinct labels the weight of a label is its count. *)
Lemma weight_of_group (s : list (pyobj * nat)) (k : pyobj) (n : nat) :
  distinct_labels s -> In (k, n) s -> key_eqb k k = true -> weight s k = n.
Proof.
  intros Hd Hin Hk. induction s as [| g s IH]; [contradiction |].
  destruct Hd as [Hg Hs]. destruct Hin as [-> | Hin].
  - unfold weight; simpl. rewrite Hk; simpl.
    fold (weight s k). rewrite weight_absent; [lia |].
    eapply Forall_impl; [| exact Hg]. simpl. intros h Hh.
    now rewrite key_eqb_sym.
  - unfold weight; simpl.
    assert (Hgk : key_eqb (fst g) k = false).
    { rewrite Forall_forall in Hg. exact (Hg _ Hin). }
    rewrite Hgk. fold (weight s k). now apply IH.
Qed.

(** ** The insertion sort *)

Section Sorting.

Variable A : Type.
Variable leb : A -> A -> bool.

Lemma insert_by_perm (x : A) (l : list A) : Permutation (insert_by leb x l) (x :: l).
Proof.
  induction l as [| y l IH]; simpl; [reflexivity |].
  destruct (leb y x); [| reflexivity].
  rewrite IH. apply perm_swap.
Qed.

Lemma sort_from_perm (l acc : list A) :
  Permutation (fold_left (fun acc x => insert_by leb x acc) l acc) (l ++ acc).
Proof.
  revert acc. induction l as [| x l IH]; intros acc; simpl; [reflexivity |].
  rewrite IH, insert_by_perm. symmetry. apply Permutation_middle.
Qed.

Lemma sort_by_perm (l : list A) : Permutation (sort_by leb l) l.
Proof. unfold sort_by. rewrite sort_from_perm. now rewrite app_nil_r. Qed.

(** The elements meet a condition under which the order is total and
    transitive. *)
Variable P : A -> Prop.
Hypothesis leb_total : forall x y, P x -> P y -> leb x y = true \/ leb y x = true.
Hypothesis leb_trans :
  forall x y z, P x -> P y -> P z -> leb x y = true -> leb y z = true -> leb x z = true.

Lemma insert_by_sorted (x : A) (l : list A) :
  P x -> Forall P l ->
  StronglySorted (fun a b => leb a b = true) l ->
  StronglySorted (fun a b => leb a b = true) (insert_by leb x l).
Proof.
  intros Hx HP Hs. induction Hs as [| y l Hs IH Hy]; simpl.
  - repeat constructor.
  - inversion HP as [| ? ? Py Pl]; subst.
    destruct (leb y x) eqn:Hyx.
    + constructor; [now apply IH |].
      apply Forall_insert_by; assumption.
    + assert (Hxy : leb x y = true).
      { destruct (leb_total x y Hx Py) as [H | H]; [exact H | congruence]. }
      constructor; [now constructor |].
      constructor; [exact Hxy |].
      rewrite Forall_forall in *. intros z Hz.
      apply (leb_trans x y z); auto.
Qed.

Lemma sort_by_sorted (l : list A) :
  Forall P l -> StronglySorted (fun a b => leb a b = true) (sort_by leb l).
Proof.
  unfold sort_by. intros HP.
  assert (Hgen : forall acc,
            Forall P acc -> StronglySorted (fun a b => leb a b = true) acc ->
            StronglySorted (fun a b => leb a b = true)
              (fold_left (fun acc x => insert_by leb x acc) l acc)).
  { induction HP as [| x l Hx Hl IH]; intros acc Hacc Hs; simpl; [exact Hs |].
    apply IH.
    - apply Forall_insert_by; assumption.
    - now apply insert_by_sorted. }
  apply Hgen; constructor.
Qed.

End Sorting.

Lemma distinct_labels_perm (l l' : list (pyobj * nat)) :
  Permutation l l' -> distinct_labels l -> distinct_labels l'.
Proof.
  induction 1 as [| x l l' Hp IH | x y l | l l' l'' _ IH1 _ IH2]; simpl; auto.
  - intros [Hx Hl]. split; [| auto].
    eapply Permutation_Forall; eassumption.
  - intros [Hy [Hx Hl]]. inversion Hy as [| ? ? Hyx Hyl]; subst.
    repeat split; auto.
    constructor; [now rewrite key_eqb_sym | assumption].
Qed.

(** The counts of a successful [value_counts]: labels are pairwise
    different numbers or strings, every count is at least one and is the
    number of cells equal to its label, and the largest counts come
    first. *)
Lemma value_counts_spec (col : list pyobj) (counts : list (pyobj * nat)) :
  value_counts col = Ok counts ->
  distinct_labels counts
  /\ Forall (fun g => proper_label (fst g) = true /\ 1 <= snd g
                      /\ snd g = occurrences (fst g) col) counts
  /\ StronglySorted (fun a b => snd b <= snd a) counts.
Proof.
  unfold value_counts. intros H; invert_binds; subst.
  match goal with Hc : count_values _ _ = Ok ?g |- _ => rename Hc into Hcount; set (groups := g) in * end.
  pose proof (distinct_labels_count_values col [] groups I Hcount) as Hd.
  pose proof (positive_count_values col [] groups (Forall_nil _) Hcount) as Hpos.
  assert (Hprop : Forall (fun g => proper_label (fst g) = true) groups).
  { apply (Forall_keys_count_values (fun v => proper_label v = true) col [] groups);
      [| constructor | exact Hcount].
    intros v _. apply present_hashable_proper. }
  set (leb := fun a b : pyobj * nat => Nat.leb (snd b) (snd a)).
  pose proof (sort_by_perm _ leb groups) as Hperm.
  split; [| split].
  - apply (distinct_labels_perm groups); [now symmetry | exact Hd].
  - apply (Permutation_Forall (x := groups)); [now symmetry |].
    apply Forall_forall. intros [k n] Hin.
    rewrite Forall_forall in Hprop, Hpos.
    pose proof (Hprop _ Hin) as Hk. pose proof (Hpos _ Hin) as Hn.
    simpl in *. repeat split; auto.
    rewrite <- (weight_of_group groups k n Hd Hin (key_eqb_proper_refl k Hk)).
    rewrite (weight_count_values col [] groups k Hcount). reflexivity.
  - assert (Hs : StronglySorted (fun a b => leb a b = true) (sort_by leb groups)).
    { apply (sort_by_sorted _ leb (fun _ => True)).
      - intros x y _ _. unfold leb.
        destruct (Nat.leb_spec (snd y) (snd x)); [now left |].
        right. apply Nat.leb_le. lia.
      - intros x y z _ _ _. unfold leb. rewrite !Nat.leb_le. lia.
      - apply Forall_forall. auto. }
    clear -Hs. induction Hs as [| g0 l0 Hs0 IH0 Hg0]; constructor; auto.
    eapply Forall_impl; [| exact Hg0]. intros h. unfold leb. apply Nat.leb_le.
Qed.

Lemma weight_positive (s : list (pyobj * nat)) (w : pyobj) :
  1 <= weight s w -> exists g, In g s /\ key_eqb (fst g) w = true.
Proof.
  unfold weight. induction s as [| g s IH]; simpl; [lia |].
  destruct (key_eqb (fst g) w) eqn:E; [eauto |].
  intros H. destruct (IH H) as (h & Hin & Hh). eauto.
Qed.

Lemma occurrences_member (v : pyobj) (col : list pyobj) :
  In v col -> proper_label v = true -> 1 <= occurrences v col.
Proof.
  unfold occurrences. intros Hin Hv.
  induction col as [| u col IH]; [contradiction |]. simpl.
  destruct Hin as [-> | Hin].
  - rewrite (key_eqb_proper_refl v Hv); simpl. lia.
  - destruct (key_eqb u v); simpl; auto.
Qed.

Lemma count_values_hashable (col : list pyobj) (acc groups : list (pyobj * nat))
  (v : pyobj) :
  count_values col acc = Ok groups -> In v col -> isna v = false -> hashable v = true.
Proof.
  intros Hc Hin Hna. destruct (hashable v) eqn:Hh; [reflexivity |].
  destruct (count_values_unhashable col acc v Hin Hh) as [e He]. congruence.
Qed.

(** Every present cell of the column has its group. *)
Lemma value_counts_covers (col : list pyobj) (counts : list (pyobj * nat)) (v : pyobj) :
  value_counts col = Ok counts -> In v col -> isna v = false ->
  exists g, In g counts /\ key_eqb (fst g) v = true.
Proof.
  unfold value_counts. intros H Hin Hna; invert_binds; subst.
  match goal with Hc : count_values _ _ = Ok ?g |- _ =>
    rename Hc into Hcount; set (groups := g) in * end.
  assert (Hv : proper_label v = true).
  { apply present_hashable_proper; [assumption |].
    eapply count_values_hashable; eassumption. }
  destruct (weight_positive groups v) as (g & Hg & Hgv).
  { rewrite (weight_count_values col [] groups v Hcount).
    pose proof (occurrences_member v col Hin Hv). unfold weight; simpl. lia. }
  exists g. split; [| exact Hgv].
  eapply Permutation_in; [symmetry; apply sort_by_perm | exact Hg].
Qed.

Lemma count_values_ok (col : list pyobj) (acc : list (pyobj * nat)) :
  Forall (fun v => isna v = true \/ hashable v = true) col ->
  exists groups, count_values col acc = Ok groups.
Proof.
  intros H. revert acc. induction H as [| v col Hv _ IH]; intros acc; simpl; [eauto |].
  destruct (isna v); [apply IH |].
  destruct Hv as [Hv | Hv]; [discriminate | rewrite Hv; apply IH].
Qed.

Lemma year_countable_cases (v : pyobj) :
  year_countable v = true ->
  (isna v = true \/ hashable v = true)
  /\ (isna v = false -> is_number v = true).
Proof.
  unfold year_countable. destruct v as [| [|] | | | | |]; simpl; auto; discriminate.
Qed.

(** [sort_index] only reorders. *)
Lemma sort_index_perm (s sorted : list (pyobj * nat)) :
  sort_index s = Ok sorted -> Permutation sorted s.
Proof.
  unfold sort_index. destruct (orderable (map fst s)); [| discriminate].
  intros [= <-]. apply sort_by_perm.
Qed.

Lemma label_leb_numbers_total (a b : pyobj) :
  is_number a = true -> is_number b = true ->
  label_leb a b = true \/ label_leb b a = true.
Proof.
  unfold is_number, label_leb.
  destruct (as_number a) as [p |], (as_number b) as [q |]; try discriminate.
  intros _ _. rewrite !Qle_bool_iff.
  destruct (Qlt_le_dec q p) as [H | H]; [right; now apply Qlt_le_weak | now left].
Qed.

Lemma label_leb_numbers_trans (a b c : pyobj) :
  is_number a = true -> is_number b = true -> is_number c = true ->
  label_leb a b = true -> label_leb b c = true -> label_leb a c = true.
Proof.
  unfold is_number, label_leb.
  destruct (as_number a) as [p |], (as_number b) as [q |], (as_number c) as [r |];
    try discriminate.
  intros _ _ _. rewrite !Qle_bool_iff. apply Qle_trans.
Qed.

(** Sorted and pairwise different numeric labels increase strictly. *)
Lemma sorted_distinct_years (s : list (pyobj * nat)) :
  Forall (fun g => is_number (fst g) = true) s ->
  distinct_labels s ->
  StronglySorted (fun a b => label_leb (fst a) (fst b) = true) s ->
  StronglySorted year_lt s.
Proof.
  intros Hnum Hd Hs. induction Hs as [| g s Hs IH Hg]; [constructor |].
  inversion Hnum as [| ? ? Hgn Hsn]; subst. destruct Hd as [Hgd Hsd].
  constructor; [now apply IH |].
  rewrite Forall_forall in *. intros h Hh.
  specialize (Hg h Hh). specialize (Hgd h Hh). specialize (Hsn h Hh).
  unfold year_lt, label_leb, key_eqb, is_number in *.
  destruct (as_number (fst g)) as [p |], (as_number (fst h)) as [q |];
    try discriminate.
  apply Qle_bool_iff in Hg. apply Qeq_bool_neq in Hgd.
  apply Qle_lteq in Hg. destruct Hg as [Hlt | Heq]; [exact Hlt | contradiction].
Qed.

(** ** The release-frequency histogram *)

(** X1. Whenever the histogram is produced, each of its entries counts
    the records of the table that have exactly that year, and at least one
    does; no year is listed twice; every year present in the table is
    listed; and the counts add up to the number of records whose year is
    present (records without a year are left out). *)
Theorem histogram_counts_per_year (df : DataFrame) (years : list pyobj)
  (freq : list (pyobj * nat)) :
  getitem df "year" = Ok years ->
  release_freq df = Ok freq ->
  Forall (fun g => 1 <= snd g /\ snd g = occurrences (fst g) years) freq
  /\ distinct_labels freq
  /\ (forall v, In v years -> isna v = false ->
                exists g, In g freq /\ key_eqb (fst g) v = true)
  /\ list_sum (map snd freq) = present years.
Proof.
  intros Hy Hfreq.
  pose proof (release_freq_total df years freq Hy Hfreq) as Hsum.
  unfold release_freq in Hfreq. rewrite Hy in Hfreq; simpl in Hfreq.
  apply bind_Ok_inv in Hfreq. destruct Hfreq as (counts & Hcounts & Hsort).
  pose proof (sort_index_perm _ _ Hsort) as Hperm.
  destruct (value_counts_spec years counts Hcounts) as (Hd & Hall & _).
  split; [| split; [| split]].
  - apply (Permutation_Forall (x := counts)); [now symmetry |].
    eapply Forall_impl; [| exact Hall]. simpl. tauto.
  - apply (distinct_labels_perm counts); [now symmetry | exact Hd].
  - intros v Hin Hna.
    destruct (value_counts_covers years counts v Hcounts Hin Hna) as (g & Hg & Hgv).
    exists g. split; [| exact Hgv].
    eapply Permutation_in; [symmetry; exact Hperm | exact Hg].
  - exact Hsum.
Qed.

Lemma histogram_counts_per_year_witness :
  getitem Recorded.scenario_table "year" = Ok [PyNum 2000; PyNum 2000; PyNum 2001]
  /\ release_freq Recorded.scenario_table = Ok [(PyNum 2000, 2); (PyNum 2001, 1)]
  /\ Forall (fun g => 1 <= snd g
                      /\ snd g = occurrences (fst g) [PyNum 2000; PyNum 2000; PyNum 2001])
            [(PyNum 2000, 2); (PyNum 2001, 1)]
  /\ distinct_labels [(PyNum 2000, 2); (PyNum 2001, 1)]
  /\ (forall v, In v [PyNum 2000; PyNum 2000; PyNum 2001] -> isna v = false ->
                exists g, In g [(PyNum 2000, 2); (PyNum 2001, 1)]
                          /\ key_eqb (fst g) v = true)
  /\ list_sum (map snd [(PyNum 2000, 2); (PyNum 2001, 1)])
     = present [PyNum 2000; PyNum 2000; PyNum 2001].
Proof.
  split; [reflexivity |]. split; [reflexivity |].
  apply (histogram_counts_per_year Recorded.scenario_table
           [PyNum 2000; PyNum 2000; PyNum 2001] [(PyNum 2000, 2); (PyNum 2001, 1)]);
    reflexivity.
Defined.

(** X2. When every year of the table is a number or missing, the
    histogram is always produced and its years increase strictly from one
    entry to the next. *)
Theorem histogram_years_ascending (df : DataFrame) (years : list pyobj) :
  getitem df "year" = Ok years ->
  forallb year_countable years = true ->
  exists freq, release_freq df = Ok freq /\ StronglySorted year_lt freq.
Proof.
  intros Hy Hall.
  assert (Hcases : Forall (fun v => (isna v = true \/ hashable v = true)
                                    /\ (isna v = false -> is_number v = true)) years).
  { apply Forall_forall. intros v Hv. apply year_countable_cases.
    rewrite forallb_forall in Hall. now apply Hall. }
  destruct (count_values_ok years [])
    as [groups Hgroups].
  { eapply Forall_impl; [| exact Hcases]. simpl. tauto. }
  assert (Hcounts : value_counts years
                    = Ok (sort_by (fun a b => Nat.leb (snd b) (snd a)) groups)).
  { unfold value_counts. now rewrite Hgroups. }
  set (counts := sort_by (fun a b => Nat.leb (snd b) (snd a)) groups) in *.
  assert (Hnum : Forall (fun g => is_number (fst g) = true) counts).
  { apply Forall_sort_by.
    apply (Forall_keys_count_values (fun v => is_number v = true) years [] groups);
      [| constructor | exact Hgroups].
    intros v Hv Hna _. rewrite Forall_forall in Hcases.
    now apply (Hcases v Hv). }
  destruct (value_counts_spec years counts Hcounts) as (Hd & _ & _).
  set (leb := fun a b : pyobj * nat => label_leb (fst a) (fst b)).
  assert (Hsort : sort_index counts = Ok (sort_by leb counts)).
  { unfold sort_index. rewrite orderable_numbers; [reflexivity |].
    apply Forall_map. exact Hnum. }
  exists (sort_by leb counts). split.
  - unfold release_freq. rewrite Hy; simpl. rewrite Hcounts; simpl. exact Hsort.
  - apply sorted_distinct_years.
    + now apply Forall_sort_by.
    + apply (distinct_labels_perm counts); [symmetry; apply sort_by_perm | exact Hd].
    + apply (sort_by_sorted _ leb (fun g => is_number (fst g) = true)).
      * intros x y. apply label_leb_numbers_total.
      * intros x y z. apply label_leb_numbers_trans.
      * exact Hnum.
Qed.

Lemma histogram_years_ascending_witness :
  getitem Recorded.scenario_table "year" = Ok [PyNum 2000; PyNum 2000; PyNum 2001]
  /\ forallb year_countable [PyNum 2000; PyNum 2000; PyNum 2001] = true
  /\ exists freq, release_freq Recorded.scenario_table = Ok freq
                  /\ StronglySorted year_lt freq.
Proof.
  split; [reflexivity |]. split; [reflexivity |].
  apply (histogram_years_ascending Recorded.scenario_table
           [PyNum 2000; PyNum 2000; PyNum 2001]); reflexivity.
Defined.

(** ** The tier distribution *)

Lemma mapM_Forall2 {A B : Type} (f : A -> result B) (l : list A) (r : list B) :
  mapM f l = Ok r -> Forall2 (fun a b => f a = Ok b) l r.
Proof.
  revert r. induction l as [| a l IH]; simpl; intros r H.
  - injection H as <-. constructor.
  - invert_binds; subst. constructor; auto.
Qed.

Lemma get_performance_tier_in_tier (p : pyobj) (t label : string) :
  p = PyNaN \/ (exists q, p = PyNum q) ->
  get_performance_tier p = Ok t ->
  In label tier_labels ->
  String.eqb t label = in_tier label p.
Proof.
  intros [-> | [q ->]] Ht Hl.
  - injection Ht as <-.
    simpl in Hl. destruct Hl as [<- | [<- | [<- | [<- | []]]]]; reflexivity.
  - rewrite tier_of_number in Ht. injection Ht as <-.
    unfold in_tier, at_most, is_number; simpl as_number; cbn [isna orb andb].
    simpl in Hl.
    destruct (Qle_bool q 5) eqn:H5, (Qle_bool q 10) eqn:H10, (Qle_bool q 50) eqn:H50;
      destruct Hl as [<- | [<- | [<- | [<- | []]]]]; try reflexivity;
      exfalso;
      repeat match goal with
        | H : Qle_bool _ _ = true |- _ => apply Qle_bool_iff in H
        | H : Qle_bool _ _ = false |- _ => apply Qle_bool_false in H
        end; lra.
Qed.

Lemma get_performance_tier_label (p : pyobj) (t : string) :
  get_performance_tier p = Ok t -> In t tier_labels.
Proof.
  unfold get_performance_tier, le_number.
  destruct (isna p); [intros [= <-]; simpl; tauto |].
  destruct (as_number p) as [q |]; simpl; [| discriminate].
  destruct (Qle_bool q 5); simpl; [intros [= <-]; simpl; tauto |].
  destruct (Qle_bool q 10); simpl; [intros [= <-]; simpl; tauto |].
  destruct (Qle_bool q 50); simpl; intros [= <-]; simpl; tauto.
Qed.

Lemma count_occ_tiers (positions : list pyobj) (tiers : list string) (label : string) :
  Forall (fun v => v = PyNaN \/ exists q, v = PyNum q) positions ->
  Forall2 (fun p t => get_performance_tier p = Ok t) positions tiers ->
  In label tier_labels ->
  count_occ string_dec tiers label = List.length (filter (in_tier label) positions).
Proof.
  intros Hnorm Htiers Hl. induction Htiers as [| p t positions tiers Hpt _ IH]; auto.
  inversion Hnorm as [| ? ? Hp Hrest]; subst. simpl.
  rewrite <- (get_performance_tier_in_tier p t label Hp Hpt Hl).
  destruct (string_dec t label) as [-> | Hne].
  - rewrite String.eqb_refl. simpl. now rewrite IH.
  - apply String.eqb_neq in Hne. rewrite Hne. now apply IH.
Qed.

Lemma occurrences_strings (tiers : list string) (label : string) :
  occurrences (PyStr label) (map PyStr tiers) = count_occ string_dec tiers label.
Proof.
  unfold occurrences. induction tiers as [| t tiers IH]; simpl; auto.
  unfold key_eqb at 1; simpl.
  destruct (string_dec t label) as [-> | Hne].
  - rewrite String.eqb_refl. simpl. now rewrite IH.
  - apply String.eqb_neq in Hne. rewrite Hne. exact IH.
Qed.

Lemma distinct_labels_NoDup (s : list (pyobj * nat)) :
  Forall (fun g => proper_label (fst g) = true) s ->
  distinct_labels s -> NoDup (map fst s).
Proof.
  induction 1 as [| g s Hg _ IH]; simpl; [constructor |].
  intros [Hgs Hs]. constructor; [| now apply IH].
  intros Hin. apply in_map_iff in Hin as (h & Heq & Hh).
  rewrite Forall_forall in Hgs. specialize (Hgs h Hh).
  rewrite Heq, (key_eqb_proper_refl (fst g) Hg) in Hgs. discriminate.
Qed.

Lemma key_eqb_PyStr (k : pyobj) (t : string) :
  key_eqb k (PyStr t) = true -> k = PyStr t.
Proof.
  unfold key_eqb. destruct k as [| [|] | | | s | |]; simpl; try discriminate.
  intros H. apply String.eqb_eq in H. now subst.
Qed.

Section TierDistribution.

Variable str_to_float : string -> option Q.

(** X3. For every processed table the treemap is built: its values add
    up to the number of records of the whole table; its labels are
    distinct tier names, listed from the largest count to the smallest,
    each with an empty parent; a tier is listed exactly when some record
    falls in it, and its value is the number of records whose normalised
    position lies in that tier's range (Top 5: at most 5; Top 10: above 5
    and at most 10; Top 50: above 10 and at most 50; No Chart: missing or
    above 50). *)
Theorem treemap_counts_tiers (album_data : pyobj) (df : DataFrame) :
  process_album_data str_to_float album_data = Ok df ->
  exists positions counts,
    getitem df position_field = Ok positions
    /\ treemap_fig df
       = Ok (figure_of (Treemap (map fst counts)
                                (repeat "" (List.length counts))
                                (map snd counts))
                       "Album Performance Distribution")
    /\ list_sum (map snd counts) = nrows df
    /\ NoDup (map fst counts)
    /\ StronglySorted (fun a b => snd b <= snd a) counts
    /\ Forall (fun g => exists label,
                   fst g = PyStr label /\ In label tier_labels /\ 1 <= snd g
                   /\ snd g = List.length (filter (in_tier label) positions)) counts
    /\ (forall label,
           In label tier_labels ->
           1 <= List.length (filter (in_tier label) positions) ->
           In (PyStr label) (map fst counts)).
Proof.
  intros Hdf.
  pose proof (well_formed_process_album_data _ _ _ Hdf) as Hwf.
  destruct (position_column_normalised _ _ _ Hdf) as (positions & Hp & Hnorm).
  destruct (mapM_tiers positions Hnorm) as (tiers & Htiers & Hlen).
  pose proof (mapM_Forall2 _ _ _ Htiers) as Hrel.
  destruct (count_values_strings tiers []) as [groups Hgroups].
  assert (Hcounts : value_counts (map PyStr tiers)
                    = Ok (sort_by (fun a b => Nat.leb (snd b) (snd a)) groups)).
  { unfold value_counts. now rewrite Hgroups. }
  set (counts := sort_by (fun a b => Nat.leb (snd b) (snd a)) groups) in *.
  destruct (value_counts_spec _ counts Hcounts) as (Hd & Hall & Hsorted).
  assert (Hlabels : Forall (fun g => exists t, fst g = PyStr t /\ In t tiers) counts).
  { apply Forall_sort_by.
    apply (Forall_keys_count_values
             (fun v => exists t, v = PyStr t /\ In t tiers) (map PyStr tiers) [] groups);
      [| constructor | exact Hgroups].
    intros v Hv _ _. apply in_map_iff in Hv as (t & <- & Ht). eauto. }
  exists positions, counts.
  split; [exact Hp |]. split.
  { unfold treemap_fig, performance_tiers. rewrite Hp; simpl. rewrite Htiers; simpl.
    rewrite getitem_setitem_same; simpl. rewrite Hcounts. reflexivity. }
  split.
  { change (total counts = nrows df).
    rewrite (total_value_counts _ counts Hcounts).
    rewrite present_all by (apply Forall_map; apply Forall_forall; reflexivity).
    rewrite length_map, Hlen. eapply getitem_length; eassumption. }
  split.
  { apply distinct_labels_NoDup; [| exact Hd].
    eapply Forall_impl; [| exact Hall]. simpl. tauto. }
  split; [exact Hsorted |]. split.
  - apply Forall_forall. intros g Hg.
    rewrite Forall_forall in Hlabels, Hall.
    destruct (Hlabels g Hg) as (t & Hkey & Ht).
    destruct (Hall g Hg) as (_ & Hpos & Hocc).
    assert (Hin : In t tier_labels).
    { apply (Forall2_flip) in Hrel.
      clear -Hrel Ht. induction Hrel as [| t' p' ? ? Hpt _ IH]; [contradiction |].
      destruct Ht as [-> | Ht]; [eapply get_performance_tier_label; eassumption | auto]. }
    exists t. repeat split; auto.
    rewrite Hocc, Hkey, occurrences_strings.
    now apply count_occ_tiers.
  - intros label Hl Hsome.
    rewrite <- (count_occ_tiers positions tiers label Hnorm Hrel Hl) in Hsome.
    apply count_occ_In in Hsome.
    destruct (value_counts_covers (map PyStr tiers) counts (PyStr label) Hcounts)
      as (g & Hg & Hgl); [now apply in_map | reflexivity |].
    apply key_eqb_PyStr in Hgl. rewrite <- Hgl. now apply in_map.
Qed.

End TierDistribution.

Lemma treemap_counts_tiers_witness :
  process_album_data Recorded.str_to_float Recorded.scenario
  = Ok Recorded.scenario_table
  /\ exists positions counts,
       getitem Recorded.scenario_table position_field = Ok positions
       /\ treemap_fig Recorded.scenario_table
          = Ok (figure_of (Treemap (map fst counts)
                                   (repeat "" (List.length counts))
                                   (map snd counts))
                          "Album Performance Distribution")
       /\ list_sum (map snd counts) = 3
       /\ NoDup (map fst counts)
       /\ StronglySorted (fun a b => snd b <= snd a) counts
       /\ Forall (fun g => exists label,
                      fst g = PyStr label /\ In label tier_labels /\ 1 <= snd g
                      /\ snd g = List.length (filter (in_tier label) positions)) counts
       /\ (forall label,
              In label tier_labels ->
              1 <= List.length (filter (in_tier label) positions) ->
              In (PyStr label) (map fst counts)).
Proof.
  split; [reflexivity |].
  apply (treemap_counts_tiers Recorded.str_to_float Recorded.scenario
           Recorded.scenario_table).
  reflexivity.
Defined.

(** ** The charting subset and the series drawn from it *)

Lemma map_fst_combine_same {A B : Type} (a : list A) (b : list B) :
  List.length a = List.length b -> map fst (combine a b) = a.
Proof.
  revert b. induction a as [| x a IH]; intros [| y b]; simpl; try discriminate; auto.
  intros [= H]. now rewrite IH.
Qed.

Lemma length_combine_same {A B : Type} (a : list A) (b : list B) :
  List.length a = List.length b -> List.length (combine a b) = List.length a.
Proof. intros H. rewrite length_combine, <- H. apply Nat.min_id. Qed.

(** Three columns cut by the mask of the middle one. *)
Lemma select_notna_triples (y p a : list pyobj) :
  List.length y = List.length p -> List.length a = List.length p ->
  combine (select (notna p) y) (combine (select (notna p) p) (select (notna p) a))
  = filter (fun row => negb (isna (fst (snd row)))) (combine y (combine p a)).
Proof.
  intros Hy Ha. rewrite <- !select_combine.
  rewrite <- (select_map_filter (fun row => negb (isna (fst (snd row))))).
  f_equal. unfold notna.
  assert (Hpa : List.length (combine p a) = List.length p)
    by (apply length_combine_same; congruence).
  rewrite <- (map_fst_combine_same p a (eq_sym Ha)) at 1.
  rewrite <- (map_snd_combine_same y (combine p a)) at 1 by congruence.
  now rewrite !map_map.
Qed.

Lemma combine_reshape_rows_1 {A B : Type} (x : list A) (col : list B) :
  combine x (reshape_rows_1 col) = map (fun row => (fst row, [snd row])) (combine x col).
Proof.
  unfold reshape_rows_1. revert col.
  induction x as [| a x IH]; intros [| b col]; simpl; auto. now rewrite IH.
Qed.

Lemma select_length_mask {A : Type} (mask : list bool) (c : list A) :
  List.length c = List.length mask ->
  List.length (select mask c) = List.length (filter (fun b => b) mask).
Proof.
  revert c. induction mask as [| m mask IH]; intros [| a c]; simpl;
    try discriminate; auto.
  intros [= H]. destruct m; simpl; auto.
Qed.

Lemma select_notna_self (p : list pyobj) :
  select (notna p) p = filter (fun v => negb (isna v)) p.
Proof. unfold notna. apply select_map_filter. Qed.

Lemma present_select (p : list pyobj) : List.length (select (notna p) p) = present p.
Proof. now rewrite select_notna_self. Qed.

Lemma well_formed_boolean_index (df : DataFrame) (mask : list bool) :
  well_formed df -> List.length mask = nrows df ->
  well_formed (boolean_index df mask).
Proof.
  unfold well_formed, boolean_index; cbn [nrows columns]. intros Hwf Hm.
  apply Forall_map; cbn [snd]. eapply Forall_impl; [| exact Hwf].
  intros kc Hkc. apply select_length_mask. congruence.
Qed.

Section Series.

Variable str_to_float : string -> option Q.

Local Abbreviation ingest := (process_album_data str_to_float).

(** X4. The scatter series of a processed table consists of the triples
    (year, position, album) of exactly the records whose position is
    present, in the order of the table; the album is only carried along as
    the point's text. *)
Theorem scatter_series_is_charting_subset (album_data : pyobj) (df : DataFrame)
  (albums years positions : list pyobj) :
  ingest album_data = Ok df ->
  getitem df "album" = Ok albums ->
  getitem df "year" = Ok years ->
  getitem df position_field = Ok positions ->
  exists subset x y text,
    charting_df df = Ok subset
    /\ scatter_fig subset
       = Ok (figure_of (Scatter x y text "markers") "Year vs Chart Position")
    /\ combine x (combine y text)
       = filter (fun row => negb (isna (fst (snd row))))
                (combine years (combine positions albums)).
Proof.
  intros Hdf Ha Hy Hp.
  pose proof (well_formed_process_album_data _ _ _ Hdf) as Hwf.
  pose proof (getitem_length _ _ _ Hwf Ha) as La.
  pose proof (getitem_length _ _ _ Hwf Hy) as Ly.
  pose proof (getitem_length _ _ _ Hwf Hp) as Lp.
  exists (boolean_index df (notna positions)),
         (select (notna positions) years), (select (notna positions) positions),
         (select (notna positions) albums).
  split; [unfold charting_df; now rewrite Hp |].
  split; [unfold scatter_fig; rewrite !getitem_boolean_index, Ha, Hy, Hp; reflexivity |].
  apply select_notna_triples; congruence.
Qed.

(** X5. The heat map of a processed table gets one matrix row per record
    whose position is present, in the order of the table: the row is the
    single cell holding that record's position, and the x label at the
    same index is that record's year; there is one y label. *)
Theorem heatmap_rows_are_charting_records (album_data : pyobj) (df : DataFrame)
  (years positions : list pyobj) :
  ingest album_data = Ok df ->
  getitem df "year" = Ok years ->
  getitem df position_field = Ok positions ->
  exists subset z x,
    charting_df df = Ok subset
    /\ heatmap_fig subset
       = Ok (figure_of (Heatmap z x ["Chart Position"]) "Year vs Chart Performance")
    /\ combine x z
       = map (fun row => (fst row, [snd row]))
             (filter (fun row => negb (isna (snd row))) (combine years positions))
    /\ List.length z = present positions
    /\ List.length x = present positions.
Proof.
  intros Hdf Hy Hp.
  pose proof (well_formed_process_album_data _ _ _ Hdf) as Hwf.
  pose proof (getitem_length _ _ _ Hwf Hy) as Ly.
  pose proof (getitem_length _ _ _ Hwf Hp) as Lp.
  exists (boolean_index df (notna positions)),
         (reshape_rows_1 (select (notna positions) positions)),
         (select (notna positions) years).
  split; [unfold charting_df; now rewrite Hp |].
  split; [unfold heatmap_fig; rewrite !getitem_boolean_index, Hy, Hp; reflexivity |].
  split; [| split].
  - rewrite combine_reshape_rows_1. f_equal. apply select_notna_rows. congruence.
  - unfold reshape_rows_1. rewrite length_map. apply present_select.
  - rewrite (select_length_same (notna positions) years positions) by congruence.
    apply present_select.
Qed.

(** X6. The charting subset of a processed table is itself a table with
    one cell per row in every column; it has as many rows as there are
    present positions, and every position left in it is a number: no
    series drawn from it carries a missing position. *)
Theorem charting_subset_has_numbers_only (album_data : pyobj) (df : DataFrame) :
  ingest album_data = Ok df ->
  exists positions subset kept,
    getitem df position_field = Ok positions
    /\ charting_df df = Ok subset
    /\ getitem subset position_field = Ok kept
    /\ kept = filter (fun v => negb (isna v)) positions
    /\ Forall (fun v => exists q, v = PyNum q) kept
    /\ nrows subset = List.length kept
    /\ well_formed subset.
Proof.
  intros Hdf.
  pose proof (well_formed_process_album_data _ _ _ Hdf) as Hwf.
  destruct (position_column_normalised _ _ _ Hdf) as (positions & Hp & Hnorm).
  pose proof (getitem_length _ _ _ Hwf Hp) as Lp.
  exists positions, (boolean_index df (notna positions)),
         (filter (fun v => negb (isna v)) positions).
  split; [exact Hp |].
  split; [unfold charting_df; now rewrite Hp |].
  split; [rewrite getitem_boolean_index, Hp; now rewrite select_notna_self |].
  split; [reflexivity |]. split; [| split].
  - apply Forall_forall. intros v Hv. apply filter_In in Hv as [Hin Hna].
    rewrite Forall_forall in Hnorm.
    destruct (Hnorm v Hin) as [-> | Hq]; [discriminate | exact Hq].
  - cbn [boolean_index nrows].
    rewrite <- select_notna_self.
    symmetry. apply select_length_mask. unfold notna. now rewrite length_map.
  - apply well_formed_boolean_index; [exact Hwf |].
    unfold notna. now rewrite length_map.
Qed.

End Series.

Lemma scatter_series_is_charting_subset_witness :
  process_album_data Recorded.str_to_float Recorded.scenario
  = Ok Recorded.scenario_table
  /\ getitem Recorded.scenario_table "album" = Ok [PyStr "A"; PyStr "B"; PyStr "C"]
  /\ getitem Recorded.scenario_table "year" = Ok [PyNum 2000; PyNum 2000; PyNum 2001]
  /\ getitem Recorded.scenario_table position_field = Ok [PyNum 3; PyNaN; PyNum 7]
  /\ exists subset x y text,
       charting_df Recorded.scenario_table = Ok subset
       /\ scatter_fig subset
          = Ok (figure_of (Scatter x y text "markers") "Year vs Chart Position")
       /\ combine x (combine y text)
          = [(PyNum 2000, (PyNum 3, PyStr "A")); (PyNum 2001, (PyNum 7, PyStr "C"))].
Proof.
  split; [reflexivity |]. split; [reflexivity |].
  split; [reflexivity |]. split; [reflexivity |].
  apply (scatter_series_is_charting_subset Recorded.str_to_float Recorded.scenario
           Recorded.scenario_table
           [PyStr "A"; PyStr "B"; PyStr "C"] [PyNum 2000; PyNum 2000; PyNum 2001]
           [PyNum 3; PyNaN; PyNum 7]);
    reflexivity.
Defined.

Lemma heatmap_rows_are_charting_records_witness :
  process_album_data Recorded.str_to_float Recorded.scenario
  = Ok Recorded.scenario_table
  /\ getitem Recorded.scenario_table "year" = Ok [PyNum 2000; PyNum 2000; PyNum 2001]
  /\ getitem Recorded.scenario_table position_field = Ok [PyNum 3; PyNaN; PyNum 7]
  /\ exists subset z x,
       charting_df Recorded.scenario_table = Ok subset
       /\ heatmap_fig subset
          = Ok (figure_of (Heatmap z x ["Chart Position"]) "Year vs Chart Performance")
       /\ combine x z = [(PyNum 2000, [PyNum 3]); (PyNum 2001, [PyNum 7])]
       /\ List.length z = 2
       /\ List.length x = 2.
Proof.
  split; [reflexivity |]. split; [reflexivity |]. split; [reflexivity |].
  apply (heatmap_rows_are_charting_records Recorded.str_to_float Recorded.scenario
           Recorded.scenario_table
           [PyNum 2000; PyNum 2000; PyNum 2001] [PyNum 3; PyNaN; PyNum 7]);
    reflexivity.
Defined.

Lemma charting_subset_has_numbers_only_witness :
  process_album_data Recorded.str_to_float Recorded.scenario
  = Ok Recorded.scenario_table
  /\ exists positions subset kept,
       getitem Recorded.scenario_table position_field = Ok positions
       /\ charting_df Recorded.scenario_table = Ok subset
       /\ getitem subset position_field = Ok kept
       /\ kept = filter (fun v => negb (isna v)) positions
       /\ Forall (fun v => exists q, v = PyNum q) kept
       /\ nrows subset = List.length kept
       /\ well_formed subset.
Proof.
  split; [reflexivity |].
  apply (charting_subset_has_numbers_only Recorded.str_to_float Recorded.scenario
           Recorded.scenario_table).
  reflexivity.
Defined.

(** ** What [process_album_data] leaves alone *)

Lemma lookup_replace_other (cols : list (string * list pyobj)) (key key' : string)
  (c : list pyobj) :
  String.eqb key key' = false ->
  lookup_column (replace_column cols key c) key' = lookup_column cols key'.
Proof.
  intros Hne. induction cols as [| [k c0] rest IH]; simpl.
  - now rewrite Hne.
  - destruct (String.eqb k key) eqn:E; simpl.
    + apply String.eqb_eq in E; subst k. now rewrite Hne.
    + now rewrite IH.
Qed.

Lemma labels_replace_existing (cols : list (string * list pyobj)) (key : string)
  (c0 c : list pyobj) :
  lookup_column cols key = Some c0 ->
  map fst (replace_column cols key c) = map fst cols.
Proof.
  induction cols as [| [k c1] rest IH]; simpl; [discriminate |].
  destruct (String.eqb k key); simpl; [reflexivity |].
  intros H. now rewrite IH.
Qed.

Section PassThrough.

Variable str_to_float : string -> option Q.

(** X7. A successful [process_album_data] changes exactly one column of
    the frame built from the upload: the position column is replaced, in
    place, by its cell-wise numeric coercion; the row count, the column
    labels and their order, and every other column (album, year and any
    extra field) are those of the constructed frame. *)
Theorem process_album_data_changes_one_column (album_data : pyobj) (df : DataFrame) :
  process_album_data str_to_float album_data = Ok df ->
  exists raw col,
    pd_DataFrame album_data = Ok raw
    /\ getitem raw position_field = Ok col
    /\ getitem df position_field = Ok (map (to_numeric_value str_to_float) col)
    /\ nrows df = nrows raw
    /\ map fst (columns df) = map fst (columns raw)
    /\ (forall key, key <> position_field -> getitem df key = getitem raw key).
Proof.
  intros H.
  destruct (process_album_data_Ok _ _ _ H) as (raw & col & Hraw & Hcol & _ & ->).
  exists raw, col. split; [exact Hraw |]. split; [exact Hcol |].
  split; [apply getitem_setitem_same |]. split; [reflexivity |]. split.
  - unfold getitem in Hcol. cbn [setitem columns].
    destruct (lookup_column (columns raw) position_field) as [c0 |] eqn:E;
      [| discriminate].
    now apply (labels_replace_existing _ _ c0).
  - intros key Hne. unfold getitem, setitem; cbn [columns].
    rewrite lookup_replace_other; [reflexivity |].
    apply String.eqb_neq. congruence.
Qed.

End PassThrough.

Lemma process_album_data_changes_one_column_witness :
  process_album_data Recorded.str_to_float Recorded.scenario
  = Ok Recorded.scenario_table
  /\ exists raw col,
       pd_DataFrame Recorded.scenario = Ok raw
       /\ getitem raw position_field = Ok col
       /\ getitem Recorded.scenario_table position_field
          = Ok (map (to_numeric_value Recorded.str_to_float) col)
       /\ nrows Recorded.scenario_table = nrows raw
       /\ map fst (columns Recorded.scenario_table) = map fst (columns raw)
       /\ (forall key, key <> position_field ->
                       getitem Recorded.scenario_table key = getitem raw key).
Proof.
  split; [reflexivity |].
  apply (process_album_data_changes_one_column Recorded.str_to_float
           Recorded.scenario Recorded.scenario_table).
  reflexivity.
Defined.

(** ** The envelope of the upload *)

Lemma split_on_no_separator (sep : ascii) (s : string) :
  count_char sep s = 0 -> split_on sep s = [s].
Proof.
  induction s as [| c s IH]; simpl; [reflexivity |].
  destruct (Ascii.eqb c sep); [discriminate |].
  simpl. intros H. now rewrite IH.
Qed.

Lemma split_on_prefix (sep : ascii) (p s : string) :
  count_char sep p = 0 ->
  split_on sep (p ++ String sep s)%string = p :: split_on sep s.
Proof.
  induction p as [| c p IH]; simpl.
  - now rewrite Ascii.eqb_refl.
  - destruct (Ascii.eqb c sep); [discriminate |].
    simpl. intros H. now rewrite IH.
Qed.

Lemma split_on_length (sep : ascii) (s : string) :
  List.length (split_on sep s) = S (count_char sep s).
Proof.
  induction s as [| c s IH]; simpl; [reflexivity |].
  destruct (Ascii.eqb c sep); simpl; [now rewrite IH |].
  destruct (split_on sep s); simpl in *; [discriminate | exact IH].
Qed.

Lemma unpack2_wrong_length (parts : list string) :
  List.length parts <> 2 ->
  unpack2 parts
  = Raise (ValueError (if Nat.leb (List.length parts) 1
                       then "not enough values to unpack (expected 2, got 1)"
                       else "too many values to unpack (expected 2)")).
Proof.
  destruct parts as [| a [| b [| c rest]]]; simpl; try reflexivity.
  intros H. now elim H.
Qed.

Section Envelope.

Variable b64decode_utf8 : string -> result string.
Variable json_loads : string -> result pyobj.
Variable str_to_float : string -> option Q.

Local Abbreviation callback :=
  (update_dashboard b64decode_utf8 json_loads str_to_float).
Local Abbreviation load := (load_album_data b64decode_utf8 json_loads).

(** X8. A non-empty [contents] string that does not hold exactly one
    comma is refused before anything is decoded: the callback returns five
    empty figures and reports the failed unpacking, "not enough values"
    without a comma and "too many values" with two or more. *)
Theorem envelope_needs_one_comma (text : string) (filename : option string) :
  text <> "" ->
  count_char "," text <> 1 ->
  callback (Some text) filename
  = (repeat go_Figure 5,
     if Nat.eqb (count_char "," text) 0
     then "Error processing file: not enough values to unpack (expected 2, got 1)"
     else "Error processing file: too many values to unpack (expected 2)").
Proof.
  intros Hne Hcount.
  destruct text as [| c s]; [now elim Hne |].
  remember (count_char "," (String c s)) as n eqn:Hn.
  rewrite update_dashboard_nonempty.
  unfold pipeline, load_album_data.
  rewrite unpack2_wrong_length by (rewrite split_on_length, <- Hn; lia).
  rewrite split_on_length, <- Hn. cbn [bind].
  destruct n as [| [| n]]; [reflexivity | | reflexivity].
  now elim Hcount.
Qed.

(** X9. With exactly one comma, only the part after it is used: the
    part before the comma (the media type) and the file name have no
    influence on what the callback returns. *)
Theorem envelope_prefix_is_ignored (prefix prefix' body : string)
  (filename filename' : option string) :
  count_char "," prefix = 0 ->
  count_char "," prefix' = 0 ->
  count_char "," body = 0 ->
  load (prefix ++ String "," body)%string
  = (let* decoded := b64decode_utf8 body in json_loads decoded)
  /\ callback (Some (prefix ++ String "," body)%string) filename
     = callback (Some (prefix' ++ String "," body)%string) filename'.
Proof.
  intros Hp Hp' Hb.
  assert (Hload : forall p, count_char "," p = 0 ->
            load (p ++ String "," body)%string
            = (let* decoded := b64decode_utf8 body in json_loads decoded)).
  { intros p Hcount. unfold load_album_data.
    rewrite split_on_prefix by assumption.
    rewrite split_on_no_separator by assumption. reflexivity. }
  split; [now apply Hload |].
  assert (Hcb : forall p fn, count_char "," p = 0 ->
            callback (Some (p ++ String "," body)%string) fn
            = match (let* album_data := (let* decoded := b64decode_utf8 body in
                                         json_loads decoded) in
                     let* df := process_album_data str_to_float album_data in
                     dashboard_figures df) with
              | Ok figures => (figures, "")
              | Raise e => (empty_figures, ("Error processing file: " ++ str_exn e)%string)
              end).
  { intros p fn Hcount.
    destruct (p ++ String "," body)%string as [| c s] eqn:E.
    - destruct p; discriminate E.
    - rewrite update_dashboard_nonempty. unfold pipeline.
      rewrite <- E. now rewrite Hload. }
  now rewrite !Hcb.
Qed.

End Envelope.

Lemma envelope_needs_one_comma_witness :
  "W10=" <> ""
  /\ count_char "," "W10=" <> 1
  /\ Recorded.run (Some "W10=")
     = (repeat go_Figure 5,
        "Error processing file: not enough values to unpack (expected 2, got 1)").
Proof.
  split; [discriminate |]. split; [discriminate |].
  apply (envelope_needs_one_comma Recorded.b64decode_utf8 Recorded.json_loads
           Recorded.str_to_float "W10=" None); discriminate.
Defined.

Lemma envelope_prefix_is_ignored_witness :
  count_char "," "data:application/json;base64" = 0
  /\ count_char "," "data:text/plain;base64" = 0
  /\ count_char "," Recorded.scenario_body = 0
  /\ load_album_data Recorded.b64decode_utf8 Recorded.json_loads
       ("data:application/json;base64" ++ String "," Recorded.scenario_body)%string
     = (let* decoded := Recorded.b64decode_utf8 Recorded.scenario_body in
        Recorded.json_loads decoded)
  /\ update_dashboard Recorded.b64decode_utf8 Recorded.json_loads Recorded.str_to_float
       (Some ("data:application/json;base64" ++ String "," Recorded.scenario_body)%string)
       None
     = update_dashboard Recorded.b64decode_utf8 Recorded.json_loads
         Recorded.str_to_float
         (Some ("data:text/plain;base64" ++ String "," Recorded.scenario_body)%string)
         (Some "albums.json").
Proof.
  split; [reflexivity |]. split; [reflexivity |]. split; [reflexivity |].
  apply (envelope_prefix_is_ignored Recorded.b64decode_utf8 Recorded.json_loads
           Recorded.str_to_float
           "data:application/json;base64" "data:text/plain;base64"
           Recorded.scenario_body None (Some "albums.json"));
    reflexivity.
Defined.

(** ** Uploads that are lists of records *)

Lemma release_freq_countable (df : DataFrame) (years : list pyobj) :
  getitem df "year" = Ok years ->
  forallb year_countable years = true ->
  exists freq, release_freq df = Ok freq.
Proof.
  intros Hy Hall.
  assert (Hcases : Forall (fun v => (isna v = true \/ hashable v = true)
                                    /\ (isna v = false -> is_number v = true)) years).
  { apply Forall_forall. intros v Hv. apply year_countable_cases.
    rewrite forallb_forall in Hall. now apply Hall. }
  destruct (count_values_ok years []) as [groups Hgroups].
  { eapply Forall_impl; [| exact Hcases]. simpl. tauto. }
  unfold release_freq, value_counts. rewrite Hy; simpl. rewrite Hgroups; simpl.
  unfold sort_index. rewrite orderable_numbers; [eauto |].
  apply Forall_map. apply Forall_sort_by.
  apply (Forall_keys_count_values (fun v => is_number v = true) years [] groups);
    [| constructor | exact Hgroups].
  intros v Hv Hna _. rewrite Forall_forall in Hcases. now apply (Hcases v Hv).
Qed.

Section Records.

Variable b64decode_utf8 : string -> result string.
Variable json_loads : string -> result pyobj.
Variable str_to_float : string -> option Q.

Local Abbreviation try_body := (pipeline b64decode_utf8 json_loads str_to_float).
Local Abbreviation callback :=
  (update_dashboard b64decode_utf8 json_loads str_to_float).
Local Abbreviation load := (load_album_data b64decode_utf8 json_loads).
Local Abbreviation ingest := (process_album_data str_to_float).

Local Abbreviation table_of_records := (table_of_records str_to_float).

Lemma ingest_records (recs : list (list (string * pyobj))) :
  ingest (PyList (map PyDict recs))
  = if existsb (carries position_field) recs
    then if existsb beyond_float_range (map (cell_of position_field) recs)
         then Raise (OverflowError "int too large to convert to float")
         else Ok (table_of_records recs)
    else Raise (KeyError position_field).
Proof.
  unfold process_album_data. rewrite pd_DataFrame_records; simpl.
  rewrite getitem_frame_of_records.
  destruct (existsb (carries position_field) recs); [| reflexivity].
  cbn [bind]. unfold pd_to_numeric.
  destruct (existsb beyond_float_range (map (cell_of position_field) recs));
    reflexivity.
Qed.

Lemma getitem_table_of_records (recs : list (list (string * pyobj))) (key : string) :
  String.eqb position_field key = false ->
  getitem (table_of_records recs) key
  = if existsb (carries key) recs then Ok (map (cell_of key) recs)
    else Raise (KeyError key).
Proof.
  intros Hne. unfold table_of_records, getitem, setitem; cbn [columns].
  rewrite lookup_replace_other by exact Hne.
  exact (getitem_frame_of_records recs key).
Qed.

Lemma callback_of_pipeline (text : string) (filename : option string) (v : pyobj) :
  load text = Ok v ->
  callback (Some text) filename
  = match try_body text with
    | Ok figures => (figures, "")
    | Raise e => (empty_figures, ("Error processing file: " ++ str_exn e)%string)
    end.
Proof.
  intros Hload. destruct text as [| c s]; [discriminate Hload |].
  apply update_dashboard_nonempty.
Qed.



End Records.



(** ** Order of the tiers *)

Lemma tier_rank_of_number (q : Q) :
  exists t, get_performance_tier (PyNum q) = Ok t
            /\ tier_rank t = (if Qle_bool q 5 then 0
                              else if Qle_bool q 10 then 1
                              else if Qle_bool q 50 then 2 else 3).
Proof.
  rewrite tier_of_number. eexists; split; [reflexivity |].
  destruct (Qle_bool q 5); [reflexivity |].
  destruct (Qle_bool q 10); [reflexivity |].
  destruct (Qle_bool q 50); reflexivity.
Qed.

(** X12. The tier rule is monotone: of two chart positions, the smaller
    (better) one never lands in a worse tier than the larger one, and a
    missing position lands in the last tier. *)
Theorem better_position_never_worse_tier (p q : Q) :
  (p <= q)%Q ->
  exists tp tq,
    get_performance_tier (PyNum p) = Ok tp
    /\ get_performance_tier (PyNum q) = Ok tq
    /\ tier_rank tp <= tier_rank tq
    /\ exists tm, get_performance_tier PyNaN = Ok tm /\ tier_rank tq <= tier_rank tm.
Proof.
  intros Hpq.
  destruct (tier_rank_of_number p) as (tp & Hp & Rp).
  destruct (tier_rank_of_number q) as (tq & Hq & Rq).
  exists tp, tq. split; [exact Hp |]. split; [exact Hq |]. split.
  - rewrite Rp, Rq.
    destruct (Qle_bool p 5) eqn:P5, (Qle_bool p 10) eqn:P10, (Qle_bool p 50) eqn:P50,
             (Qle_bool q 5) eqn:Q5, (Qle_bool q 10) eqn:Q10, (Qle_bool q 50) eqn:Q50;
      try lia; exfalso;
      repeat match goal with
        | H : Qle_bool _ _ = true |- _ => apply Qle_bool_iff in H
        | H : Qle_bool _ _ = false |- _ => apply Qle_bool_false in H
        end; lra.
  - exists "No Chart". split; [reflexivity |].
    rewrite Rq. change (tier_rank "No Chart") with 3.
    destruct (Qle_bool q 5); [lia |].
    destruct (Qle_bool q 10); [lia |].
    destruct (Qle_bool q 50); lia.
Qed.

Lemma better_position_never_worse_tier_witness :
  (7 <= 12)%Q
  /\ exists tp tq,
       get_performance_tier (PyNum 7) = Ok tp
       /\ get_performance_tier (PyNum 12) = Ok tq
       /\ tier_rank tp <= tier_rank tq
       /\ exists tm, get_performance_tier PyNaN = Ok tm /\ tier_rank tq <= tier_rank tm.
Proof.
  split; [discriminate |].
  apply (better_position_never_worse_tier 7 12). discriminate.
Defined.

(** ** Failures of the decoders *)

Section DecoderErrors.

Variable b64decode_utf8 : string -> result string.
Variable json_loads : string -> result pyobj.
Variable str_to_float : string -> option Q.

Local Abbreviation callback :=
  (update_dashboard b64decode_utf8 json_loads str_to_float).

(** X13. For a well-formed envelope, an exception of the base64/UTF-8
    decoding, or of the JSON parser on the decoded text, ends the run with
    five empty figures and a message that is the fixed prefix followed by
    the text of that exception; nothing of the upload is processed. *)
Theorem decoder_error_is_reported (prefix body : string) (filename : option string)
  (e : exn) :
  count_char "," prefix = 0 ->
  count_char "," body = 0 ->
  b64decode_utf8 body = Raise e
  \/ (exists decoded, b64decode_utf8 body = Ok decoded /\ json_loads decoded = Raise e) ->
  callback (Some (prefix ++ String "," body)%string) filename
  = (repeat go_Figure 5, ("Error processing file: " ++ str_exn e)%string).
Proof.
  intros Hp Hb Hfail.
  destruct (prefix ++ String "," body)%string as [| c s] eqn:E;
    [destruct prefix; discriminate E |].
  rewrite update_dashboard_nonempty. unfold pipeline, load_album_data.
  rewrite <- E, split_on_prefix, split_on_no_separator by assumption.
  cbn [unpack2 bind snd].
  destruct Hfail as [-> | (decoded & -> & Hjson)]; cbn [bind]; [reflexivity |].
  now rewrite Hjson.
Qed.

End DecoderErrors.

Lemma decoder_error_is_reported_witness :
  count_char "," "data:application/json;base64" = 0
  /\ count_char "," Recorded.truncated_body = 0
  /\ (exists decoded,
         Recorded.b64decode_utf8 Recorded.truncated_body = Ok decoded
         /\ Recorded.json_loads decoded = Raise (JSONDecodeError "Expecting value"))
  /\ Recorded.run
       (Some ("data:application/json;base64" ++ String "," Recorded.truncated_body)%string)
     = (repeat go_Figure 5, "Error processing file: Expecting value").
Proof.
  assert (Hjson : exists decoded,
             Recorded.b64decode_utf8 Recorded.truncated_body = Ok decoded
             /\ Recorded.json_loads decoded = Raise (JSONDecodeError "Expecting value")).
  { eexists. split; reflexivity. }
  split; [reflexivity |]. split; [reflexivity |]. split; [exact Hjson |].
  apply (decoder_error_is_reported Recorded.b64decode_utf8 Recorded.json_loads
           Recorded.str_to_float "data:application/json;base64"
           Recorded.truncated_body None (JSONDecodeError "Expecting value"));
    [reflexivity | reflexivity | right; exact Hjson].
Defined.
